(** * fast_backend: the session and registration subsystem of [server.mjs]

    A shallow embedding of [src/server.mjs] together with the two tables of
    [src/prisma/schema.prisma].  The JavaScript functions become functions
    in a state-and-exception monad over a [World] that holds the two
    database tables, the module-level object [user_session_buffer], the
    console, the clock and the sources of nondeterminism (random bytes,
    reachability of the database). *)

From Stdlib Require Import ZArith String Ascii List Lia.
From stdpp Require Import base option list sorting strings gmap fin_maps.

Local Open Scope string_scope.
Local Open Scope list_scope.
Local Open Scope Z_scope.

(** ** Data model: [schema.prisma] *)

(** [model Users]. *)
Module Users.

Record t : Type := mk {
  user_id : Z;
  username : string;
  password : string;
  permission : Z;
  auth_method : string
}.

End Users.

(** [model UserProfile]; the field is spelled [brithday] in the schema. *)
Module UserProfile.

Record t : Type := mk {
  profile_id : Z;
  gender : string;
  brithday : Z;
  user_id : Z
}.

End UserProfile.

(** ** JavaScript values the server manipulates *)

(** Only the values that flow through [server.mjs] are represented: the two
    primitives [undefined] and [null], numbers and strings of a JSON body,
    the records Prisma returns, and the members every object literal
    inherits from [Object.prototype] ([VBuiltin k] is the value of
    [Object.prototype[k]]).  A JSON body can also carry booleans, arrays
    and objects, and strings that are not well-formed UTF-16; these are not
    represented, and a statement over every body leaves them out. *)
Inductive value : Type :=
| VUndefined
| VNull
| VNum (n : Z)
| VStr (s : string)
| VUser (u : Users.t)
| VProfile (p : UserProfile.t)
| VBuiltin (k : string).

(** What a rejected promise or a [throw] carries. *)
Inductive error : Type :=
| TypeError (receiver : value)
    (* "Cannot read properties of undefined/null": a property read whose
       receiver is [undefined] or [null] *)
| PrismaClientInitializationError
    (* the database cannot be reached *)
| PrismaClientValidationError
    (* an argument of a query has the wrong type or is missing *)
| PrismaClientKnownRequestError (code : string).
    (* the database refused the query: P2002 unique constraint, P2025
       record to connect not found *)

Inductive log_entry : Type :=
| LogValue (v : value)       (* console.log *)
| LogError (e : error).      (* console.error *)

(** ** The world *)

Record World : Type := mkWorld {
  (* table Users, in rowid order *)
  tbl_Users : list Users.t;
  (* table UserProfile, in rowid order *)
  tbl_UserProfile : list UserProfile.t;
  (* sqlite_sequence of the two AUTOINCREMENT keys *)
  seq_Users : Z;
  seq_UserProfile : Z;
  (* let user_session_buffer = {}: the own properties of the object *)
  user_session_buffer : gmap string value;
  console : list log_entry;
  (* the clock read by new Date(), in milliseconds *)
  now : Z;
  (* number of queries sent to the database so far *)
  db_calls : nat;
  (* number of random bytes consumed so far *)
  rng_pos : nat;
  (* the environment: whether the n-th query finds the database
     unreachable, how long the n-th query takes, and the n-th random byte *)
  db_fault : nat -> bool;
  db_delay : nat -> Z;
  rng : nat -> Z
}.

Definition set_tbl_Users (l : list Users.t) (s : Z) (w : World) : World :=
  mkWorld l (tbl_UserProfile w) s (seq_UserProfile w)
          (user_session_buffer w) (console w) (now w) (db_calls w) (rng_pos w)
          (db_fault w) (db_delay w) (rng w).

Definition set_tbl_UserProfile (l : list UserProfile.t) (s : Z) (w : World) : World :=
  mkWorld (tbl_Users w) l (seq_Users w) s
          (user_session_buffer w) (console w) (now w) (db_calls w) (rng_pos w)
          (db_fault w) (db_delay w) (rng w).

Definition set_user_session_buffer (b : gmap string value) (w : World) : World :=
  mkWorld (tbl_Users w) (tbl_UserProfile w) (seq_Users w) (seq_UserProfile w)
          b (console w) (now w) (db_calls w) (rng_pos w)
          (db_fault w) (db_delay w) (rng w).

Definition set_console (c : list log_entry) (w : World) : World :=
  mkWorld (tbl_Users w) (tbl_UserProfile w) (seq_Users w) (seq_UserProfile w)
          (user_session_buffer w) c (now w) (db_calls w) (rng_pos w)
          (db_fault w) (db_delay w) (rng w).

(** One round trip to the database: the query counter advances and the
    clock moves forward by the (non-negative) duration of the query. *)
Definition tick_db (w : World) : World :=
  mkWorld (tbl_Users w) (tbl_UserProfile w) (seq_Users w) (seq_UserProfile w)
          (user_session_buffer w) (console w)
          (now w + Z.max 0 (db_delay w (db_calls w))) (S (db_calls w)) (rng_pos w)
          (db_fault w) (db_delay w) (rng w).

Definition advance_rng (n : nat) (w : World) : World :=
  mkWorld (tbl_Users w) (tbl_UserProfile w) (seq_Users w) (seq_UserProfile w)
          (user_session_buffer w) (console w) (now w) (db_calls w) (rng_pos w + n)%nat
          (db_fault w) (db_delay w) (rng w).

(** ** The monad of async functions

    An async function either fulfils with a value or rejects with an error,
    and changes the world on the way.  [await] is sequencing: one request
    is followed from start to end. *)

Inductive outcome (A : Type) : Type :=
| Return (a : A)
| Throw (e : error).
Arguments Return {A} a.
Arguments Throw {A} e.

Definition M (A : Type) : Type := World -> outcome A * World.

Definition ret {A} (a : A) : M A := fun w => (Return a, w).

Definition throw {A} (e : error) : M A := fun w => (Throw e, w).

Definition bind {A B} (m : M A) (k : A -> M B) : M B :=
  fun w =>
    match m w with
    | (Return a, w1) => k a w1
    | (Throw e, w1) => (Throw e, w1)
    end.

(** [try { m } catch (err) { h err }]. *)
Definition try_catch {A} (m : M A) (h : error -> M A) : M A :=
  fun w =>
    match m w with
    | (Return a, w1) => (Return a, w1)
    | (Throw e, w1) => h e w1
    end.

Declare Scope js_scope.
Delimit Scope js_scope with js.
Notation "'let*' x ':=' m 'in' k" := (bind m (fun x => k))
  (at level 10, x name, m at level 100, k at level 200) : js_scope.
Notation "m1 '>>' m2" := (bind m1 (fun _ => m2))
  (at level 90, right associativity) : js_scope.
Local Open Scope js_scope.

Definition console_log (v : value) : M unit :=
  fun w => (Return tt, set_console (console w ++ [LogValue v]) w).

Definition console_error (e : error) : M unit :=
  fun w => (Return tt, set_console (console w ++ [LogError e]) w).

(** [new Date()]. *)
Definition new_Date : M Z := fun w => (Return (now w), w).

(** ** The Prisma client over SQLite

    The client library is not part of the repository; its queries are
    modelled on the two tables as the schema declares them. *)

(** A scalar condition of a [where] object.  A field whose value is
    [undefined] puts no condition on the rows; a field of the column's type
    is an equality test (SQLite compares TEXT byte by byte); any other
    value represented here ([null], a value of another type) is refused by
    the client before the database is asked.  (An object, which [value]
    does not represent, would be read as a filter.) *)
Definition where_String (v : value) : option (option string) :=
  match v with
  | VUndefined => Some None
  | VStr s => Some (Some s)
  | _ => None
  end.

Definition where_Int (v : value) : option (option Z) :=
  match v with
  | VUndefined => Some None
  | VNum n => Some (Some n)
  | _ => None
  end.

Definition satisfies {A} `{EqDecision A} (cond : option A) (x : A) : bool :=
  match cond with
  | None => true
  | Some a => bool_decide (x = a)
  end.

(** One query sent to the database. *)
Definition db_query : M unit :=
  fun w =>
    if db_fault w (db_calls w)
    then (Throw PrismaClientInitializationError, tick_db w)
    else (Return tt, tick_db w).

Definition nullable {A} (inj : A -> value) (o : option A) : value :=
  match o with
  | Some a => inj a
  | None => VNull
  end.

(** [prisma.users.findFirst({ where: { username, password } })]. *)
Definition users_findFirst (username password : value) : M value :=
  match where_String username, where_String password with
  | Some cu, Some cp =>
      db_query >>
      fun w =>
        (Return (nullable VUser
                   (find (fun u => satisfies cu (Users.username u)
                                   && satisfies cp (Users.password u))
                         (tbl_Users w))), w)
  | _, _ => throw PrismaClientValidationError
  end.

(** [prisma.userProfile.findFirst({ where: { user_id } })]. *)
Definition userProfile_findFirst (user_id : value) : M value :=
  match where_Int user_id with
  | Some c =>
      db_query >>
      fun w =>
        (Return (nullable VProfile
                   (find (fun p => satisfies c (UserProfile.user_id p))
                         (tbl_UserProfile w))), w)
  | None => throw PrismaClientValidationError
  end.

(** INTEGER PRIMARY KEY AUTOINCREMENT: one more than the largest key the
    table has ever held. *)
Definition autoincrement (seq : Z) (keys : list Z) : Z :=
  Z.max seq (foldr Z.max 0 keys) + 1.

(** [prisma.users.create({ data: { username, password, permission,
    auth_method } })]: all four columns are required.  Integers are
    unbounded here; the client and SQLite keep them within 64 bits, which
    the literal [0] the handler passes and the keys of a store built by
    requests never leave. *)
Definition users_create (username password permission auth_method : value)
  : M Users.t :=
  match username, password, permission, auth_method with
  | VStr un, VStr pw, VNum pm, VStr am =>
      db_query >>
      fun w =>
        let id := autoincrement (seq_Users w) (map Users.user_id (tbl_Users w)) in
        let user := Users.mk id un pw pm am in
        (Return user, set_tbl_Users (tbl_Users w ++ [user]) id w)
  | _, _, _, _ => throw PrismaClientValidationError
  end.

(** [prisma.userProfile.create({ data: { gender, brithday,
    user: { connect: { user_id } } } })]: the row of Users to connect must
    exist, and [user_id] is @unique in UserProfile. *)
Definition userProfile_create (gender : string) (brithday : Z) (user_id : Z)
  : M UserProfile.t :=
  db_query >>
  fun w =>
    if negb (existsb (fun u => bool_decide (Users.user_id u = user_id)) (tbl_Users w))
    then (Throw (PrismaClientKnownRequestError "P2025"), w)
    else if existsb (fun p => bool_decide (UserProfile.user_id p = user_id))
                    (tbl_UserProfile w)
    then (Throw (PrismaClientKnownRequestError "P2002"), w)
    else
      let id := autoincrement (seq_UserProfile w)
                              (map UserProfile.profile_id (tbl_UserProfile w)) in
      let profile := UserProfile.mk id gender brithday user_id in
      (Return profile, set_tbl_UserProfile (tbl_UserProfile w ++ [profile]) id w).

(** ** The uuid package

    [v4()] draws 16 random bytes, writes the version and the variant into
    bytes 6 and 8, and prints the bytes in lower-case hexadecimal, grouped
    8-4-4-4-12. *)

Definition hex_digit (n : Z) : ascii :=
  match n with
  | 0 => "0" | 1 => "1" | 2 => "2" | 3 => "3"
  | 4 => "4" | 5 => "5" | 6 => "6" | 7 => "7"
  | 8 => "8" | 9 => "9" | 10 => "a" | 11 => "b"
  | 12 => "c" | 13 => "d" | 14 => "e" | _ => "f"
  end%char.

Definition byteToHex (b : Z) : string :=
  String (hex_digit (b / 16)) (String (hex_digit (b mod 16)) EmptyString).

Definition unsafeStringify (arr : list Z) : string :=
  let h i := byteToHex (nth i arr 0) in
  h 0%nat +:+ h 1%nat +:+ h 2%nat +:+ h 3%nat +:+ "-" +:+
  h 4%nat +:+ h 5%nat +:+ "-" +:+
  h 6%nat +:+ h 7%nat +:+ "-" +:+
  h 8%nat +:+ h 9%nat +:+ "-" +:+
  h 10%nat +:+ h 11%nat +:+ h 12%nat +:+ h 13%nat +:+ h 14%nat +:+ h 15%nat.

Definition v4 (rnds : list Z) : string :=
  let rnds := <[6%nat := Z.lor (Z.land (nth 6 rnds 0) 15) 64]> rnds in
  let rnds := <[8%nat := Z.lor (Z.land (nth 8 rnds 0) 63) 128]> rnds in
  unsafeStringify rnds.

Definition random_bytes (w : World) : list Z :=
  map (fun i => rng w (rng_pos w + i)%nat mod 256) (seq 0 16).

(** [uuidv4()]. *)
Definition uuidv4 : M string :=
  fun w => (Return (v4 (random_bytes w)), advance_rng 16 w).

(** ** Property reads and writes on JavaScript values *)

(** The properties an object literal inherits from [Object.prototype]. *)
Definition Object_prototype : list string :=
  [ "constructor"; "__defineGetter__"; "__defineSetter__"; "hasOwnProperty";
    "__lookupGetter__"; "__lookupSetter__"; "isPrototypeOf";
    "propertyIsEnumerable"; "toString"; "valueOf"; "__proto__";
    "toLocaleString" ].

(** [obj[k]] for an object literal with own properties [obj]: an own
    property first, then the prototype, else [undefined]. *)
Definition get_property (obj : gmap string value) (k : string) : value :=
  match obj !! k with
  | Some v => v
  | None => if bool_decide (k ∈ Object_prototype) then VBuiltin k else VUndefined
  end.

(** [v.user_id]: reading a property of [undefined] or [null] throws; a
    record has the column; nothing else the server handles has such a
    property. *)
Definition get_user_id (v : value) : M value :=
  match v with
  | VUndefined | VNull => throw (TypeError v)
  | VUser u => ret (VNum (Users.user_id u))
  | VProfile p => ret (VNum (UserProfile.user_id p))
  | VNum _ | VStr _ | VBuiltin _ => ret VUndefined
  end.

(** ** [server.mjs] *)

(** Line 15: [user_session_buffer[uuid].user_id]. *)
Definition session_user_id (uuid : string) : M value :=
  fun w => get_user_id (get_property (user_session_buffer w) uuid) w.

(** Line 76: [user_session_buffer[uuid] = result].  The key is always a
    string printed by [uuidv4] (see [uuidv4_own_key]), for which the
    assignment creates or overwrites an own property. *)
Definition session_assign (uuid : string) (result : value) : M unit :=
  fun w =>
    (Return tt, set_user_session_buffer (<[uuid := result]> (user_session_buffer w)) w).

Definition get_userprofile_by_uuid (uuid : string) : M value :=
  let* user_id := session_user_id uuid in
  let* profile := userProfile_findFirst user_id in
  ret profile.

Definition get_user_by_auth (username password : value) : M value :=
  let* user := users_findFirst username password in
  ret user.

(** The function has no [return] statement: it fulfils with [undefined]. *)
Definition create_user (username password permission auth_method : value) : M value :=
  let* user := users_create username password permission auth_method in
  (* create user profile *)
  let* brithday := new_Date in
  let* _ := userProfile_create "gay" brithday (Users.user_id user) in
  console_log (VUser user) >>
  ret VUndefined.

(** What a handler returns to Fastify. *)
Inductive reply : Type :=
| ReplyResult (result : value)   (* return result *)
| ReplySuccess                   (* {"message": "Success"} *)
| ReplyUuid (uuid : string)      (* {"uuid": uuid} *)
| ReplyError (err : error).      (* {"message": "Error", err} *)

(** [request.body] after JSON parsing, as far as the handlers look at it:
    the two properties [username] and [password]; a property the body does
    not have is [undefined]. *)
Record Body : Type := mkBody {
  body_username : value;
  body_password : value
}.

(** [let { username, password } = request.body], which stands before the
    [try]: a request without a body throws here. *)
Definition destructure (body : option Body) : M (value * value) :=
  match body with
  | Some b => ret (body_username b, body_password b)
  | None => throw (TypeError VUndefined)
  end.

(** [fastify.get('/api/v1/user/:uuid', ...)]. *)
Definition get_api_v1_user (uuid : string) : M reply :=
  try_catch
    (let* result := get_userprofile_by_uuid uuid in
     console_log result >>
     ret (ReplyResult result))
    (fun err =>
     console_error err >>
     ret (ReplyError err)).

(** [fastify.post('/api/v1/user', ...)]. *)
Definition post_api_v1_user (body : option Body) : M reply :=
  let* up := destructure body in
  try_catch
    (let* result := create_user (fst up) (snd up) (VNum 0) (VStr "local") in
     ret ReplySuccess)
    (fun err =>
     console_error err >>
     ret (ReplyError err)).

(** [fastify.post('/api/v1/user/session', ...)]. *)
Definition post_api_v1_user_session (body : option Body) : M reply :=
  let* up := destructure body in
  try_catch
    (let* uuid := uuidv4 in
     let* result := get_user_by_auth (fst up) (snd up) in
     session_assign uuid result >>
     ret (ReplyUuid uuid))
    (fun err =>
     console_error err >>
     ret (ReplyError err)).

(** ** A concrete run: the scenario of the specification *)

Definition world0 : World :=
  mkWorld [] [] 0 0 ∅ [] 1700000000000 0 0
          (fun _ => false) (fun _ => 5) (fun n => Z.of_nat n * 37 + 11).

Definition alice_body : Body := mkBody (VStr "alice") (VStr "p1").

Definition world_registered : World := snd (post_api_v1_user (Some alice_body) world0).

Definition world_logged_in : World :=
  snd (post_api_v1_user_session (Some alice_body) world_registered).

(** The same request with a wrong password. *)
Definition mallory_body : Body := mkBody (VStr "alice") (VStr "wrong").

(** A run in which the database drops out for the second query, the one
    that creates the profile: alice registers, then logs in. *)
Definition world_flaky : World :=
  mkWorld [] [] 0 0 ∅ [] 1700000000000 0 0
          (fun n => Nat.eqb n 1) (fun _ => 5) (fun n => Z.of_nat n * 37 + 11).

Definition world_half_registered : World :=
  snd (post_api_v1_user (Some alice_body) world_flaky).

Definition world_half_logged_in : World :=
  snd (post_api_v1_user_session (Some alice_body) world_half_registered).

(** ** The routes

    The three routes registered on [fastify], as a dispatch on the request;
    [serve] answers a list of requests one after the other. *)

Inductive request : Type :=
| GET_api_v1_user (uuid : string)
| POST_api_v1_user (body : option Body)
| POST_api_v1_user_session (body : option Body).

Definition handle (r : request) : M reply :=
  match r with
  | GET_api_v1_user uuid => get_api_v1_user uuid
  | POST_api_v1_user body => post_api_v1_user body
  | POST_api_v1_user_session body => post_api_v1_user_session body
  end.

Fixpoint serve (rs : list request) (w : World) : World :=
  match rs with
  | [] => w
  | r :: rs' => serve rs' (snd (handle r w))
  end.

(** ** Integrity of the store and of the session buffer *)

(** What [schema.prisma] and the migration declare of the two tables: the
    AUTOINCREMENT keys grow in rowid order, [UserProfile.user_id] is unique
    and refers to a row of Users. *)
Definition store_ok (w : World) : Prop :=
  StronglySorted Z.lt (map Users.user_id (tbl_Users w))
  /\ StronglySorted Z.lt (map UserProfile.profile_id (tbl_UserProfile w))
  /\ NoDup (map UserProfile.user_id (tbl_UserProfile w))
  /\ forall p, p ∈ tbl_UserProfile w ->
       exists u, u ∈ tbl_Users w /\ Users.user_id u = UserProfile.user_id p.

(** Every session is [null] or a row of Users. *)
Definition sessions_ok (w : World) : Prop :=
  forall k v, user_session_buffer w !! k = Some v ->
    v = VNull \/ exists u, v = VUser u /\ u ∈ tbl_Users w.

(** The rows a registration can leave behind: none, a user alone, or a
    user and the profile that refers to it; the keys are new. *)
Definition grows (w w' : World) : Prop :=
  (tbl_Users w' = tbl_Users w /\ tbl_UserProfile w' = tbl_UserProfile w)
  \/ exists user,
       tbl_Users w' = tbl_Users w ++ [user]
       /\ (forall u, u ∈ tbl_Users w -> Users.user_id u < Users.user_id user)
       /\ (tbl_UserProfile w' = tbl_UserProfile w
           \/ exists profile,
                tbl_UserProfile w' = tbl_UserProfile w ++ [profile]
                /\ UserProfile.user_id profile = Users.user_id user
                /\ forall q, q ∈ tbl_UserProfile w ->
                     UserProfile.profile_id q < UserProfile.profile_id profile
                     /\ UserProfile.user_id q <> Users.user_id user).

(** A reply that reports a failure: the error body, or an exception that
    leaves the handler. *)
Definition failed (o : outcome reply) : Prop :=
  match o with
  | Return (ReplyError _) => True
  | Throw _ => True
  | Return _ => False
  end.

(** ** Further runs *)

Definition bob_body : Body := mkBody (VStr "bob") (VStr "p2").

(** A run in which the database is never reachable. *)
Definition world_down : World :=
  mkWorld [] [] 0 0 ∅ [] 1700000000000 0 0
          (fun _ => true) (fun _ => 5) (fun n => Z.of_nat n * 37 + 11).

(** A run whose random source repeats itself: alice and bob register,
    alice logs in. *)
Definition world_stuck : World :=
  mkWorld [] [] 0 0 ∅ [] 1700000000000 0 0
          (fun _ => false) (fun _ => 5) (fun _ => 7).

Definition world_stuck_alice : World :=
  serve [POST_api_v1_user (Some alice_body); POST_api_v1_user (Some bob_body);
         POST_api_v1_user_session (Some alice_body)] world_stuck.

(** A run in which alice registers twice. *)
Definition world_twice : World :=
  serve [POST_api_v1_user (Some alice_body); POST_api_v1_user (Some alice_body)] world0.

(** ** Vocabulary of the statements *)

(** The credentials of a row are the supplied strings, character for
    character. *)
Definition credentials_match (username password : string) (u : Users.t) : Prop :=
  Users.username u = username /\ Users.password u = password.

(** Unfolding of the server and of the client, for proofs by cases. *)
Ltac unfold_server :=
  unfold post_api_v1_user_session, post_api_v1_user, get_api_v1_user,
         destructure, create_user, get_user_by_auth, get_userprofile_by_uuid,
         session_assign, session_user_id, get_user_id, uuidv4,
         users_findFirst, userProfile_findFirst, users_create,
         userProfile_create, db_query, new_Date, console_log, console_error,
         try_catch, bind, ret, throw in *.

(** * Properties *)

(** ** Helper lemmas *)

(** [find] returns the first element that passes the test. *)
Lemma find_first {A} (f : A -> bool) (l : list A) :
  match find f l with
  | Some x => exists l1 l2, l = l1 ++ x :: l2 /\ f x = true
                            /\ forall y, y ∈ l1 -> f y = false
  | None => forall y, y ∈ l -> f y = false
  end.
Proof.
  induction l as [|a l IH]; simpl.
  - intros y Hy. inversion Hy.
  - destruct (f a) eqn:Hfa.
    + exists [], l. split; [reflexivity|]. split; [assumption|].
      intros y Hy. inversion Hy.
    + destruct (find f l) as [x|].
      * destruct IH as (l1 & l2 & -> & Hx & Hl1).
        exists (a :: l1), l2. split; [reflexivity|]. split; [assumption|].
        intros y Hy. apply elem_of_cons in Hy as [->|Hy]; auto.
      * intros y Hy. apply elem_of_cons in Hy as [->|Hy]; auto.
Qed.

Lemma satisfies_Some {A} `{EqDecision A} (a x : A) :
  satisfies (Some a) x = true <-> x = a.
Proof. unfold satisfies. apply bool_decide_eq_true. Qed.

Lemma satisfies_credentials (username password : string) (u : Users.t) :
  satisfies (Some username) (Users.username u)
  && satisfies (Some password) (Users.password u) = true
  <-> credentials_match username password u.
Proof.
  unfold credentials_match.
  rewrite andb_true_iff, !satisfies_Some. reflexivity.
Qed.

Lemma not_satisfies_credentials (username password : string) (u : Users.t) :
  satisfies (Some username) (Users.username u)
  && satisfies (Some password) (Users.password u) = false
  <-> ~ credentials_match username password u.
Proof.
  rewrite <- satisfies_credentials.
  destruct (_ && _); split; intros; try congruence; tauto.
Qed.

(** Every string [v4] prints has 36 characters, whatever the bytes. *)
Lemma length_v4 (rnds : list Z) : String.length (v4 rnds) = 36%nat.
Proof. reflexivity. Qed.

Lemma Object_prototype_short (k : string) :
  k ∈ Object_prototype -> (String.length k < 36)%nat.
Proof.
  unfold Object_prototype. intros Hk.
  repeat (apply elem_of_cons in Hk as [->|Hk]; [simpl; lia|]).
  inversion Hk.
Qed.

(** A token is never the name of an inherited property, and in particular
    not [__proto__]: reading it from [user_session_buffer] sees own
    properties only, and assigning to it creates an own property. *)
Lemma uuidv4_own_key (w : World) :
  v4 (random_bytes w) ∉ Object_prototype.
Proof.
  intros Hk. apply Object_prototype_short in Hk.
  rewrite length_v4 in Hk. lia.
Qed.

(** The query of [get_user_by_auth] neither reads nor writes the random
    source. *)
Lemma get_user_by_auth_advance_rng (username password : value) (n : nat) (w : World) :
  get_user_by_auth username password (advance_rng n w)
  = (fst (get_user_by_auth username password w),
     advance_rng n (snd (get_user_by_auth username password w))).
Proof.
  unfold_server.
  destruct (where_String username) as [cu|]; [|reflexivity].
  destruct (where_String password) as [cp|]; [|reflexivity].
  cbn. destruct (db_fault w (db_calls w)); reflexivity.
Qed.

(** [get_user_by_auth] leaves the tables and the session buffer as they
    are, whatever it returns. *)
Lemma get_user_by_auth_read_only (username password : value) (w : World) :
  let w' := snd (get_user_by_auth username password w) in
  tbl_Users w' = tbl_Users w /\ tbl_UserProfile w' = tbl_UserProfile w
  /\ seq_Users w' = seq_Users w /\ seq_UserProfile w' = seq_UserProfile w
  /\ user_session_buffer w' = user_session_buffer w.
Proof.
  unfold_server.
  destruct (where_String username) as [cu|]; [|cbn; auto].
  destruct (where_String password) as [cp|]; [|cbn; auto].
  cbn. destruct (db_fault w (db_calls w)); cbn; auto.
Qed.

(** ** Authentication *)

(** On two strings the function is what the specification says of
    authentication: for every pair of strings and every state of the store,
    [get_user_by_auth] changes neither the tables nor the session buffer;
    and when the database answers, it returns the first row of Users whose
    username and password are literally the strings supplied, or [null]
    when no row has them. *)
Theorem get_user_by_auth_first_match (username password : string) (w : World) :
  (let w' := snd (get_user_by_auth (VStr username) (VStr password) w) in
   tbl_Users w' = tbl_Users w /\ tbl_UserProfile w' = tbl_UserProfile w
   /\ seq_Users w' = seq_Users w /\ seq_UserProfile w' = seq_UserProfile w
   /\ user_session_buffer w' = user_session_buffer w)
  /\ (db_fault w (db_calls w) = false ->
      let r := fst (get_user_by_auth (VStr username) (VStr password) w) in
      (exists before u after,
          tbl_Users w = before ++ u :: after
          /\ credentials_match username password u
          /\ (forall u', u' ∈ before -> ~ credentials_match username password u')
          /\ r = Return (VUser u))
      \/ ((forall u, u ∈ tbl_Users w -> ~ credentials_match username password u)
          /\ r = Return VNull)).
Proof.
  split; [apply get_user_by_auth_read_only|].
  intros Hup. unfold_server. cbn. rewrite Hup. cbn.
  pose proof (find_first
    (fun u => satisfies (Some username) (Users.username u)
              && satisfies (Some password) (Users.password u)) (tbl_Users w)) as Hf.
  destruct (find _ (tbl_Users w)) as [u|]; cbn.
  - left. destruct Hf as (l1 & l2 & Hl & Hu & Hl1).
    exists l1, u, l2. split; [assumption|].
    split; [by apply satisfies_credentials|].
    split; [|reflexivity].
    intros u' Hu'. apply not_satisfies_credentials. auto.
  - right. split; [|reflexivity].
    intros u Hu. apply not_satisfies_credentials. auto.
Qed.

Lemma get_user_by_auth_first_match_witness :
  let r := fst (get_user_by_auth (VStr "alice") (VStr "p1") world_registered) in
  (exists before u after,
      tbl_Users world_registered = before ++ u :: after
      /\ credentials_match "alice" "p1" u
      /\ (forall u', u' ∈ before -> ~ credentials_match "alice" "p1" u')
      /\ r = Return (VUser u))
  \/ ((forall u, u ∈ tbl_Users world_registered -> ~ credentials_match "alice" "p1" u)
      /\ r = Return VNull).
Proof.
  apply (proj2 (get_user_by_auth_first_match "alice" "p1" world_registered)).
  vm_compute. reflexivity.
Defined.

(** The comparison is case-sensitive: a registered name in another case
    finds nothing. *)
Example get_user_by_auth_case_sensitive :
  fst (get_user_by_auth (VStr "Alice") (VStr "p1") world_registered) = Return VNull
  /\ fst (get_user_by_auth (VStr "alice") (VStr "P1") world_registered) = Return VNull.
Proof. split; vm_compute; reflexivity. Qed.

(** C1, at inputs the code mishandles.  The handler hands the two
    properties of the body to [get_user_by_auth] unchecked, and a property
    the body does not have is [undefined].  With alice registered under the
    password [p1]: a body with her username and no password is answered
    with her row, whose password was compared with nothing, and the login
    binds a token to it; a body with no property at all is answered with
    her row as well; and a [null] username with her password is answered
    with an exception, not with [null]. *)
Theorem get_user_by_auth_unchecked_password :
  tbl_Users world_registered = [Users.mk 1 "alice" "p1" 0 "local"]
  /\ fst (get_user_by_auth (VStr "alice") VUndefined world_registered)
     = Return (VUser (Users.mk 1 "alice" "p1" 0 "local"))
  /\ (let run := post_api_v1_user_session (Some (mkBody (VStr "alice") VUndefined))
                                          world_registered in
      fst run = Return (ReplyUuid "0b30557a-9fc4-490e-b358-7da2c7ec1136")
      /\ user_session_buffer (snd run) !! "0b30557a-9fc4-490e-b358-7da2c7ec1136"
         = Some (VUser (Users.mk 1 "alice" "p1" 0 "local")))
  /\ fst (get_user_by_auth VUndefined VUndefined world_registered)
     = Return (VUser (Users.mk 1 "alice" "p1" 0 "local"))
  /\ fst (get_user_by_auth VNull (VStr "p1") world_registered)
     = Throw PrismaClientValidationError.
Proof. repeat split; vm_compute; reflexivity. Qed.

(** ** The session registry

    The registry of the specification is [user_session_buffer].  Its
    [issue] is lines 74 to 77 of the session handler ([uuidv4], then the
    assignment of the query's answer under the new key); its [resolve] is
    line 15 of [get_userprofile_by_uuid], the read
    [user_session_buffer[uuid].user_id], and the failure of [resolve] is the
    [TypeError] this read throws on [undefined] or [null], which the handler
    turns into the error body. *)

(** What the session handler does once the query has answered: the token
    printed from the next 16 random bytes is bound to the answer, whatever
    the answer is, and is sent back. *)
Lemma post_api_v1_user_session_Return (w : World) (body : Body) (result : value) :
  fst (get_user_by_auth (body_username body) (body_password body) w) = Return result ->
  exists w',
    post_api_v1_user_session (Some body) w
    = (Return (ReplyUuid (v4 (random_bytes w))), w')
    /\ user_session_buffer w'
       = <[v4 (random_bytes w) := result]> (user_session_buffer w)
    /\ tbl_Users w' = tbl_Users w
    /\ tbl_UserProfile w' = tbl_UserProfile w.
Proof.
  intros Hr.
  pose proof (get_user_by_auth_read_only (body_username body) (body_password body) w)
    as (HU & HP & _ & _ & HB).
  unfold post_api_v1_user_session, destructure, try_catch, bind, ret, uuidv4,
         session_assign.
  cbn. rewrite get_user_by_auth_advance_rng.
  destruct (get_user_by_auth (body_username body) (body_password body) w)
    as [r w2]. cbn in *. subst r. cbn.
  eexists. split; [reflexivity|]. cbn. rewrite HB. auto.
Qed.

(** Reading the session of a token bound to a row of Users. *)
Lemma session_user_id_VUser (uuid : string) (u : Users.t) (w : World) :
  user_session_buffer w !! uuid = Some (VUser u) ->
  get_property (user_session_buffer w) uuid = VUser u
  /\ session_user_id uuid w = (Return (VNum (Users.user_id u)), w).
Proof.
  intros Hk. unfold session_user_id, get_property. rewrite Hk. split; reflexivity.
Qed.

(** Reading the session of a token bound to [null]. *)
Lemma session_user_id_VNull (uuid : string) (w : World) :
  user_session_buffer w !! uuid = Some VNull ->
  session_user_id uuid w = (Throw (TypeError VNull), w).
Proof.
  intros Hk. unfold session_user_id, get_property. rewrite Hk. reflexivity.
Qed.

(** Reading the session of a string that is neither a token of the buffer
    nor the name of an inherited property. *)
Lemma session_user_id_absent (uuid : string) (w : World) :
  user_session_buffer w !! uuid = None ->
  uuid ∉ Object_prototype ->
  session_user_id uuid w = (Throw (TypeError VUndefined), w)
  /\ exists w', get_api_v1_user uuid w = (Return (ReplyError (TypeError VUndefined)), w')
                /\ user_session_buffer w' = user_session_buffer w.
Proof.
  intros Hk Hp.
  assert (Hs : session_user_id uuid w = (Throw (TypeError VUndefined), w)).
  { unfold session_user_id, get_property. rewrite Hk.
    rewrite bool_decide_eq_false_2 by assumption. reflexivity. }
  split; [assumption|].
  unfold get_api_v1_user, get_userprofile_by_uuid, try_catch, bind.
  rewrite Hs. cbn. eexists. split; reflexivity.
Qed.

(** C2: when the query of a session request returns a row of Users, the
    request answers with a token, and reading that token back in the
    resulting world gives exactly that row, whose [user_id] line 15 of
    [get_userprofile_by_uuid] then obtains. *)
Theorem issue_resolve_roundtrip (w : World) (body : Body) (u : Users.t) :
  fst (get_user_by_auth (body_username body) (body_password body) w)
  = Return (VUser u) ->
  exists T w',
    post_api_v1_user_session (Some body) w = (Return (ReplyUuid T), w')
    /\ get_property (user_session_buffer w') T = VUser u
    /\ session_user_id T w' = (Return (VNum (Users.user_id u)), w').
Proof.
  intros Hr.
  destruct (post_api_v1_user_session_Return w body (VUser u) Hr)
    as (w' & Hrun & Hbuf & _).
  exists (v4 (random_bytes w)), w'. split; [assumption|].
  apply session_user_id_VUser. rewrite Hbuf. apply lookup_insert_eq.
Qed.

Lemma issue_resolve_roundtrip_witness :
  exists T w',
    post_api_v1_user_session (Some alice_body) world_registered
    = (Return (ReplyUuid T), w')
    /\ get_property (user_session_buffer w') T
       = VUser (Users.mk 1 "alice" "p1" 0 "local")
    /\ session_user_id T w' = (Return (VNum 1), w').
Proof.
  apply (issue_resolve_roundtrip world_registered alice_body
           (Users.mk 1 "alice" "p1" 0 "local")).
  vm_compute. reflexivity.
Defined.

(** C4: when the query of a session request returns a row of Users and the
    token printed from the next random bytes is not a key of the buffer
    (freshness), the request succeeds with that token, binds it to the row,
    keeps every binding the buffer had, and so grows the buffer by one;
    this holds as well when the same row is already bound to other tokens. *)
Theorem issue_fresh_no_overwrite (w : World) (body : Body) (u : Users.t) :
  fst (get_user_by_auth (body_username body) (body_password body) w)
  = Return (VUser u) ->
  user_session_buffer w !! v4 (random_bytes w) = None ->
  exists T w',
    post_api_v1_user_session (Some body) w = (Return (ReplyUuid T), w')
    /\ user_session_buffer w !! T = None
    /\ user_session_buffer w' !! T = Some (VUser u)
    /\ (forall k v, user_session_buffer w !! k = Some v ->
                    k <> T /\ user_session_buffer w' !! k = Some v)
    /\ (forall k, k <> T -> user_session_buffer w' !! k = user_session_buffer w !! k)
    /\ size (user_session_buffer w') = S (size (user_session_buffer w)).
Proof.
  intros Hr Hfresh.
  destruct (post_api_v1_user_session_Return w body (VUser u) Hr)
    as (w' & Hrun & Hbuf & _).
  exists (v4 (random_bytes w)), w'. rewrite Hbuf.
  split; [assumption|]. split; [assumption|].
  split; [apply lookup_insert_eq|].
  split; [|split].
  - intros k v Hk.
    assert (k <> v4 (random_bytes w)) as Hne by (intros ->; congruence).
    split; [assumption|]. rewrite lookup_insert_ne by congruence. assumption.
  - intros k Hne. apply lookup_insert_ne. congruence.
  - apply map_size_insert_None. assumption.
Qed.

Lemma issue_fresh_no_overwrite_witness :
  exists T w',
    post_api_v1_user_session (Some alice_body) world_logged_in
    = (Return (ReplyUuid T), w')
    /\ user_session_buffer world_logged_in !! T = None
    /\ user_session_buffer w' !! T = Some (VUser (Users.mk 1 "alice" "p1" 0 "local"))
    /\ (forall k v, user_session_buffer world_logged_in !! k = Some v ->
                    k <> T /\ user_session_buffer w' !! k = Some v)
    /\ (forall k, k <> T ->
                  user_session_buffer w' !! k = user_session_buffer world_logged_in !! k)
    /\ size (user_session_buffer w') = S (size (user_session_buffer world_logged_in)).
Proof.
  apply (issue_fresh_no_overwrite world_logged_in alice_body
           (Users.mk 1 "alice" "p1" 0 "local")).
  - vm_compute. reflexivity.
  - vm_compute. reflexivity.
Defined.

(** [get_userprofile_by_uuid] and its handler only read the session
    buffer and the tables. *)
Lemma get_userprofile_by_uuid_read_only (uuid : string) (w : World) :
  let w' := snd (get_userprofile_by_uuid uuid w) in
  user_session_buffer w' = user_session_buffer w
  /\ tbl_Users w' = tbl_Users w /\ tbl_UserProfile w' = tbl_UserProfile w.
Proof.
  unfold get_userprofile_by_uuid, session_user_id, get_user_id,
         userProfile_findFirst, db_query, bind, ret, throw.
  destruct (get_property (user_session_buffer w) uuid) as [| |n|s|u|p|k];
    cbn; auto;
    destruct (db_fault w (db_calls w)); cbn; auto.
Qed.

(** A string that names an inherited property and is not a token of the
    buffer is read as that inherited member, whose [user_id] is
    [undefined]; the profile query then carries no condition and answers
    with the first row of UserProfile. *)
Lemma get_userprofile_by_uuid_inherited (uuid : string) (w : World) :
  user_session_buffer w !! uuid = None ->
  uuid ∈ Object_prototype ->
  db_fault w (db_calls w) = false ->
  session_user_id uuid w = (Return VUndefined, w)
  /\ fst (get_userprofile_by_uuid uuid w)
     = Return (nullable VProfile (head (tbl_UserProfile w))).
Proof.
  intros Hk Hp Hup.
  assert (Hs : session_user_id uuid w = (Return VUndefined, w)).
  { unfold session_user_id, get_property. rewrite Hk.
    rewrite bool_decide_eq_true_2 by assumption. reflexivity. }
  split; [assumption|].
  unfold get_userprofile_by_uuid, bind. rewrite Hs.
  unfold userProfile_findFirst, db_query, bind, ret. cbn. rewrite Hup. cbn.
  destruct (tbl_UserProfile w); reflexivity.
Qed.

(** C3, at a string the code mishandles: after alice has registered and
    logged in, [constructor] is not a key of the session buffer, yet
    reading its session does not throw, and the profile handler answers
    with alice's profile instead of the error body. *)
Theorem inherited_key_is_resolved :
  user_session_buffer world_logged_in !! "constructor" = None
  /\ fst (session_user_id "constructor" world_logged_in) = Return VUndefined
  /\ fst (get_api_v1_user "constructor" world_logged_in)
     = Return (ReplyResult (VProfile (UserProfile.mk 1 "gay" 1700000000005 1))).
Proof. repeat split; vm_compute; reflexivity. Qed.

(** C9: for a token the buffer binds to a row of Users, reading its
    session twice in a row gives the row's [user_id] both times and leaves
    the world as it was; the whole of [get_userprofile_by_uuid] leaves the
    buffer as it was, too. *)
Theorem resolve_idempotent (uuid : string) (u : Users.t) (w : World) :
  user_session_buffer w !! uuid = Some (VUser u) ->
  let r1 := fst (session_user_id uuid w) in
  let w1 := snd (session_user_id uuid w) in
  let r2 := fst (session_user_id uuid w1) in
  let w2 := snd (session_user_id uuid w1) in
  get_property (user_session_buffer w) uuid = VUser u
  /\ r1 = Return (VNum (Users.user_id u)) /\ r2 = r1
  /\ w1 = w /\ w2 = w
  /\ get_property (user_session_buffer w2) uuid = VUser u
  /\ user_session_buffer (snd (get_userprofile_by_uuid uuid w))
     = user_session_buffer w
  /\ user_session_buffer
       (snd (get_userprofile_by_uuid uuid (snd (get_userprofile_by_uuid uuid w))))
     = user_session_buffer w.
Proof.
  intros Hk. cbv zeta.
  destruct (session_user_id_VUser uuid u w Hk) as [Hg Hs].
  rewrite !Hs. cbn. rewrite !Hs. cbn.
  repeat split; try assumption.
  - apply get_userprofile_by_uuid_read_only.
  - etransitivity; apply get_userprofile_by_uuid_read_only.
Qed.

Lemma resolve_idempotent_witness :
  let uuid := "0b30557a-9fc4-490e-b358-7da2c7ec1136" in
  let u := Users.mk 1 "alice" "p1" 0 "local" in
  let w := world_logged_in in
  let r1 := fst (session_user_id uuid w) in
  let w1 := snd (session_user_id uuid w) in
  let r2 := fst (session_user_id uuid w1) in
  let w2 := snd (session_user_id uuid w1) in
  get_property (user_session_buffer w) uuid = VUser u
  /\ r1 = Return (VNum (Users.user_id u)) /\ r2 = r1
  /\ w1 = w /\ w2 = w
  /\ get_property (user_session_buffer w2) uuid = VUser u
  /\ user_session_buffer (snd (get_userprofile_by_uuid uuid w))
     = user_session_buffer w
  /\ user_session_buffer
       (snd (get_userprofile_by_uuid uuid (snd (get_userprofile_by_uuid uuid w))))
     = user_session_buffer w.
Proof.
  apply (resolve_idempotent "0b30557a-9fc4-490e-b358-7da2c7ec1136"
           (Users.mk 1 "alice" "p1" 0 "local") world_logged_in).
  vm_compute. reflexivity.
Defined.

(** C10: when the query of a session request returns [null], the request
    still answers with the token printed from the next random bytes and
    binds that token to [null]; in every world where the token is bound to
    [null], the profile handler answers with the error body, the error
    being the failed read of [user_id] on [null]. *)
Theorem failed_login_issues_null_session (w : World) (body : Body) :
  fst (get_user_by_auth (body_username body) (body_password body) w) = Return VNull ->
  exists T w',
    post_api_v1_user_session (Some body) w = (Return (ReplyUuid T), w')
    /\ T = v4 (random_bytes w)
    /\ user_session_buffer w' !! T = Some VNull
    /\ forall w2, user_session_buffer w2 !! T = Some VNull ->
         exists w3, get_api_v1_user T w2 = (Return (ReplyError (TypeError VNull)), w3).
Proof.
  intros Hr.
  destruct (post_api_v1_user_session_Return w body VNull Hr)
    as (w' & Hrun & Hbuf & _).
  exists (v4 (random_bytes w)), w'.
  split; [assumption|]. split; [reflexivity|].
  split; [rewrite Hbuf; apply lookup_insert_eq|].
  intros w2 Hk.
  unfold get_api_v1_user, get_userprofile_by_uuid, try_catch, bind.
  rewrite (session_user_id_VNull _ _ Hk). cbn. eexists. reflexivity.
Qed.

Lemma failed_login_issues_null_session_witness :
  exists T w',
    post_api_v1_user_session (Some mallory_body) world_registered
    = (Return (ReplyUuid T), w')
    /\ T = v4 (random_bytes world_registered)
    /\ user_session_buffer w' !! T = Some VNull
    /\ forall w2, user_session_buffer w2 !! T = Some VNull ->
         exists w3, get_api_v1_user T w2 = (Return (ReplyError (TypeError VNull)), w3).
Proof.
  apply (failed_login_issues_null_session world_registered mallory_body).
  vm_compute. reflexivity.
Defined.

(** ** Registration *)

Lemma autoincrement_above (seq : Z) (keys : list Z) (k : Z) :
  k ∈ keys -> k < autoincrement seq keys.
Proof.
  unfold autoincrement. intros Hk.
  assert (k <= foldr Z.max 0 keys); [|lia].
  induction keys as [|a keys IH]; [inversion Hk|].
  simpl. apply elem_of_cons in Hk as [->|Hk]; [lia|].
  specialize (IH Hk). lia.
Qed.

(** A successful [users.create] appends one row, under a key larger than
    every key of the table, and touches nothing else but the clock. *)
Lemma users_create_Return (un pw pm am : value) (w w1 : World) (user : Users.t) :
  users_create un pw pm am w = (Return user, w1) ->
  tbl_Users w1 = tbl_Users w ++ [user]
  /\ tbl_UserProfile w1 = tbl_UserProfile w
  /\ user_session_buffer w1 = user_session_buffer w
  /\ console w1 = console w
  /\ now w <= now w1
  /\ un = VStr (Users.username user) /\ pw = VStr (Users.password user)
  /\ pm = VNum (Users.permission user) /\ am = VStr (Users.auth_method user)
  /\ forall u, u ∈ tbl_Users w -> Users.user_id u < Users.user_id user.
Proof.
  unfold users_create, db_query, bind, throw.
  destruct un, pw, pm, am; try discriminate.
  destruct (db_fault w (db_calls w)); [discriminate|].
  intros [= <- <-]. cbn.
  repeat split; try reflexivity; [lia|].
  intros u Hu. apply autoincrement_above.
  apply list_elem_of_fmap. exists u. auto.
Qed.

Lemma existsb_false_forall {A} (f : A -> bool) (l : list A) :
  existsb f l = false -> forall x, x ∈ l -> f x = false.
Proof.
  induction l as [|a l IH]; simpl; intros H x Hx; [inversion Hx|].
  apply orb_false_iff in H as [Ha Hl].
  apply elem_of_cons in Hx as [->|Hx]; auto.
Qed.

Lemma filter_none {A} (P : A -> Prop) `{forall x, Decision (P x)} (l : list A) :
  (forall x, x ∈ l -> ~ P x) -> filter P l = [].
Proof.
  induction l as [|a l IH]; intros Hl; [reflexivity|].
  rewrite filter_cons_False by (apply Hl; left).
  apply IH. intros x Hx. apply Hl. by right.
Qed.

(** A successful [userProfile.create] appends one row with the data given,
    and there was no row for that user before. *)
Lemma userProfile_create_Return (g : string) (b uid : Z) (w1 w2 : World)
      (profile : UserProfile.t) :
  userProfile_create g b uid w1 = (Return profile, w2) ->
  tbl_UserProfile w2 = tbl_UserProfile w1 ++ [profile]
  /\ tbl_Users w2 = tbl_Users w1
  /\ user_session_buffer w2 = user_session_buffer w1
  /\ console w2 = console w1
  /\ now w1 <= now w2
  /\ UserProfile.gender profile = g
  /\ UserProfile.brithday profile = b
  /\ UserProfile.user_id profile = uid
  /\ forall q, q ∈ tbl_UserProfile w1 -> UserProfile.user_id q <> uid.
Proof.
  unfold userProfile_create, db_query, bind.
  destruct (db_fault w1 (db_calls w1)); [discriminate|]. cbn.
  destruct (negb _); [discriminate|].
  destruct (existsb _ (tbl_UserProfile w1)) eqn:Hex; [discriminate|].
  intros [= <- <-]. cbn.
  repeat split; try reflexivity; [lia|].
  intros q Hq. apply (existsb_false_forall _ _ Hex) in Hq.
  by apply bool_decide_eq_false in Hq.
Qed.

(** A failed [userProfile.create] leaves both tables as they were. *)
Lemma userProfile_create_Throw (g : string) (b uid : Z) (w1 w2 : World) (e : error) :
  userProfile_create g b uid w1 = (Throw e, w2) ->
  tbl_UserProfile w2 = tbl_UserProfile w1 /\ tbl_Users w2 = tbl_Users w1.
Proof.
  unfold userProfile_create, db_query, bind.
  destruct (db_fault w1 (db_calls w1)); [intros [= <- <-]; auto|]. cbn.
  destruct (negb _); [intros [= <- <-]; auto|].
  destruct (existsb _ (tbl_UserProfile w1)); [intros [= <- <-]; auto|].
  discriminate.
Qed.

(** The two steps of a successful [create_user]. *)
Lemma create_user_Return (un pw pm am : value) (w w' : World) (r : value) :
  create_user un pw pm am w = (Return r, w') ->
  exists user w1 profile w2,
    users_create un pw pm am w = (Return user, w1)
    /\ userProfile_create "gay" (now w1) (Users.user_id user) w1 = (Return profile, w2)
    /\ r = VUndefined
    /\ w' = set_console (console w2 ++ [LogValue (VUser user)]) w2.
Proof.
  unfold create_user, bind at 1 2 3, new_Date.
  destruct (users_create un pw pm am w) as [[user|e] w1]; [|discriminate].
  destruct (userProfile_create "gay" (now w1) (Users.user_id user) w1)
    as [[profile|e] w2] eqn:Hprofile; [|discriminate].
  unfold console_log, bind, ret. intros [= <- <-].
  exists user, w1, profile, w2. auto.
Qed.

(** C5: whenever [create_user] succeeds, it has appended one row [user]
    to Users and one row [profile] to UserProfile; the profile carries the
    new user's [user_id], the fixed gender string and, as [brithday], the
    time on the clock when the profile was created (when [users.create] had
    returned); and it is the only row of UserProfile for that user. *)
Theorem create_user_one_profile (un pw pm am : value) (w w' : World) (r : value) :
  create_user un pw pm am w = (Return r, w') ->
  exists user profile,
    tbl_Users w' = tbl_Users w ++ [user]
    /\ tbl_UserProfile w' = tbl_UserProfile w ++ [profile]
    /\ UserProfile.user_id profile = Users.user_id user
    /\ UserProfile.gender profile = "gay"
    /\ UserProfile.brithday profile = now (snd (users_create un pw pm am w))
    /\ now w <= UserProfile.brithday profile <= now w'
    /\ filter (fun p => UserProfile.user_id p = Users.user_id user) (tbl_UserProfile w')
       = [profile].
Proof.
  intros Hrun.
  destruct (create_user_Return _ _ _ _ _ _ _ Hrun)
    as (user & w1 & profile & w2 & Hu & Hp & _ & ->).
  rewrite Hu. cbn.
  apply users_create_Return in Hu as (HU1 & HP1 & _ & _ & Hn1 & _).
  apply userProfile_create_Return in Hp
    as (HP2 & HU2 & _ & _ & Hn2 & Hg & Hb & Hid & Hnone).
  exists user, profile.
  rewrite HU2, HU1, HP2, HP1, Hb.
  repeat split; try assumption; try lia.
  rewrite filter_app, filter_cons_True, filter_nil by assumption.
  replace (filter _ (tbl_UserProfile w)) with (@nil UserProfile.t); [reflexivity|].
  symmetry. apply filter_none.
  intros q Hq. apply Hnone. rewrite HP1. assumption.
Qed.

Lemma create_user_one_profile_witness :
  exists user profile,
    tbl_Users world_registered = tbl_Users world0 ++ [user]
    /\ tbl_UserProfile world_registered = tbl_UserProfile world0 ++ [profile]
    /\ UserProfile.user_id profile = Users.user_id user
    /\ UserProfile.gender profile = "gay"
    /\ UserProfile.brithday profile
       = now (snd (users_create (VStr "alice") (VStr "p1") (VNum 0) (VStr "local") world0))
    /\ now world0 <= UserProfile.brithday profile <= now world_registered
    /\ filter (fun p => UserProfile.user_id p = Users.user_id user)
              (tbl_UserProfile world_registered)
       = [profile].
Proof.
  apply (create_user_one_profile (VStr "alice") (VStr "p1") (VNum 0) (VStr "local")
           world0 world_registered VUndefined).
  vm_compute. reflexivity.
Defined.

(** C7, as the code has it: whenever [create_user] succeeds, what it
    returns to its caller is [undefined]; the new row of Users, built from
    the arguments, is in the table and is the last thing written to the
    console. *)
Theorem create_user_returns_undefined (un pw pm am : value) (w w' : World) (r : value) :
  create_user un pw pm am w = (Return r, w') ->
  r = VUndefined
  /\ exists user,
       tbl_Users w' = tbl_Users w ++ [user]
       /\ un = VStr (Users.username user) /\ pw = VStr (Users.password user)
       /\ last (console w') = Some (LogValue (VUser user)).
Proof.
  intros Hrun.
  destruct (create_user_Return _ _ _ _ _ _ _ Hrun)
    as (user & w1 & profile & w2 & Hu & Hp & -> & ->).
  split; [reflexivity|]. exists user. cbn.
  apply users_create_Return in Hu as (HU1 & _ & _ & _ & _ & Hun & Hpw & _).
  apply userProfile_create_Return in Hp as (_ & HU2 & _).
  rewrite HU2, HU1, last_snoc. auto.
Qed.

Lemma create_user_returns_undefined_witness :
  VUndefined = VUndefined
  /\ exists user,
       tbl_Users world_registered = tbl_Users world0 ++ [user]
       /\ VStr "alice" = VStr (Users.username user)
       /\ VStr "p1" = VStr (Users.password user)
       /\ last (console world_registered) = Some (LogValue (VUser user)).
Proof.
  apply (create_user_returns_undefined (VStr "alice") (VStr "p1") (VNum 0) (VStr "local")
           world0 world_registered VUndefined).
  vm_compute. reflexivity.
Defined.

(** C7, as the claim has it, fails: registering alice in the empty store
    creates her row of Users, and [create_user] returns [undefined], not
    that row nor any other. *)
Lemma create_user_returns_no_identity :
  let run := create_user (VStr "alice") (VStr "p1") (VNum 0) (VStr "local") world0 in
  fst run = Return VUndefined
  /\ tbl_Users (snd run) = [Users.mk 1 "alice" "p1" 0 "local"]
  /\ ~ exists u, fst run = Return (VUser u).
Proof.
  split; [vm_compute; reflexivity|].
  split; [vm_compute; reflexivity|].
  intros [u Hu]. vm_compute in Hu. discriminate.
Qed.

(** C8: whenever [users.create] has succeeded with a row [user] and the
    [userProfile.create] that follows throws, [create_user] throws the same
    error and ends in a world whose Users table still holds [user], with
    no row added to UserProfile; the handler turns the error into the
    error body and leaves the row where it is. *)
Theorem create_user_not_atomic (un pw pm am : value) (w w1 w2 : World)
        (user : Users.t) (e : error) :
  users_create un pw pm am w = (Return user, w1) ->
  userProfile_create "gay" (now w1) (Users.user_id user) w1 = (Throw e, w2) ->
  create_user un pw pm am w = (Throw e, w2)
  /\ tbl_Users w2 = tbl_Users w ++ [user]
  /\ user ∈ tbl_Users w2
  /\ tbl_UserProfile w2 = tbl_UserProfile w
  /\ (pm = VNum 0 -> am = VStr "local" ->
      let run := post_api_v1_user (Some (mkBody un pw)) w in
      fst run = Return (ReplyError e)
      /\ tbl_Users (snd run) = tbl_Users w ++ [user]
      /\ tbl_UserProfile (snd run) = tbl_UserProfile w).
Proof.
  intros Hu Hp.
  assert (Hrun : create_user un pw pm am w = (Throw e, w2)).
  { unfold create_user, bind at 1. rewrite Hu.
    unfold bind at 1, new_Date. unfold bind at 1. rewrite Hp. reflexivity. }
  apply users_create_Return in Hu as (HU1 & HP1 & _).
  apply userProfile_create_Throw in Hp as (HP2 & HU2).
  assert (HU : tbl_Users w2 = tbl_Users w ++ [user]) by congruence.
  assert (HP : tbl_UserProfile w2 = tbl_UserProfile w) by congruence.
  split; [assumption|]. split; [assumption|].
  split; [rewrite HU; apply elem_of_app; right; apply list_elem_of_singleton; reflexivity|].
  split; [assumption|].
  intros -> ->.
  assert (Hreply : post_api_v1_user (Some (mkBody un pw)) w
                   = (Return (ReplyError e), set_console (console w2 ++ [LogError e]) w2)).
  { unfold post_api_v1_user, destructure, try_catch, bind, ret, console_error.
    cbn. rewrite Hrun. reflexivity. }
  rewrite Hreply. cbn. auto.
Qed.

Lemma create_user_not_atomic_witness :
  let user := Users.mk 1 "alice" "p1" 0 "local" in
  let w2 := snd (create_user (VStr "alice") (VStr "p1") (VNum 0) (VStr "local")
                             world_flaky) in
  let run := post_api_v1_user (Some alice_body) world_flaky in
  create_user (VStr "alice") (VStr "p1") (VNum 0) (VStr "local") world_flaky
  = (Throw PrismaClientInitializationError, w2)
  /\ user ∈ tbl_Users w2
  /\ tbl_UserProfile w2 = []
  /\ fst run = Return (ReplyError PrismaClientInitializationError)
  /\ tbl_Users (snd run) = [user]
  /\ tbl_UserProfile (snd run) = [].
Proof.
  destruct (create_user_not_atomic (VStr "alice") (VStr "p1") (VNum 0) (VStr "local")
    world_flaky
    (snd (users_create (VStr "alice") (VStr "p1") (VNum 0) (VStr "local") world_flaky))
    (snd (create_user (VStr "alice") (VStr "p1") (VNum 0) (VStr "local") world_flaky))
    (Users.mk 1 "alice" "p1" 0 "local") PrismaClientInitializationError
    ltac:(vm_compute; reflexivity) ltac:(vm_compute; reflexivity))
    as (Hrun & _ & Hin & HP & Hhandler).
  destruct (Hhandler eq_refl eq_refl) as (Hreply & HU' & HP').
  repeat split; assumption.
Defined.

(** ** Profile lookup *)

(** C6, as the code has it: when the token is bound to a row of Users, no
    row of UserProfile carries that user's [user_id] and the database
    answers, [get_userprofile_by_uuid] returns [null] without throwing, and
    the handler passes [null] on as its result. *)
Theorem lookup_without_profile_returns_null (uuid : string) (u : Users.t) (w : World) :
  user_session_buffer w !! uuid = Some (VUser u) ->
  (forall p, p ∈ tbl_UserProfile w -> UserProfile.user_id p <> Users.user_id u) ->
  db_fault w (db_calls w) = false ->
  fst (get_userprofile_by_uuid uuid w) = Return VNull
  /\ fst (get_api_v1_user uuid w) = Return (ReplyResult VNull).
Proof.
  intros Hk Hnone Hup.
  destruct (session_user_id_VUser uuid u w Hk) as [_ Hs].
  assert (Hrun : get_userprofile_by_uuid uuid w = (Return VNull, tick_db w)).
  { unfold get_userprofile_by_uuid, bind at 1. rewrite Hs.
    unfold userProfile_findFirst, db_query, bind, ret. cbn. rewrite Hup. cbn.
    pose proof (find_first
      (fun p => satisfies (Some (Users.user_id u)) (UserProfile.user_id p))
      (tbl_UserProfile w)) as Hf.
    destruct (find _ (tbl_UserProfile w)) as [p|]; [|reflexivity].
    destruct Hf as (l1 & l2 & Hl & Hp & _).
    rewrite satisfies_Some in Hp. exfalso. apply (Hnone p); [|assumption].
    rewrite Hl. apply elem_of_app. right. left. }
  split; [rewrite Hrun; reflexivity|].
  unfold get_api_v1_user, try_catch, bind at 1. rewrite Hrun. reflexivity.
Qed.

Lemma lookup_without_profile_returns_null_witness :
  let uuid := "0b30557a-9fc4-490e-b358-7da2c7ec1136" in
  fst (get_userprofile_by_uuid uuid world_half_logged_in) = Return VNull
  /\ fst (get_api_v1_user uuid world_half_logged_in) = Return (ReplyResult VNull).
Proof.
  apply (lookup_without_profile_returns_null "0b30557a-9fc4-490e-b358-7da2c7ec1136"
           (Users.mk 1 "alice" "p1" 0 "local") world_half_logged_in).
  - vm_compute. reflexivity.
  - intros p Hp. vm_compute in Hp. inversion Hp.
  - vm_compute. reflexivity.
Defined.

(** C6, as the claim has it, fails: alice's registration lost its second
    step, she logs in, and her token is bound to her row of Users while
    UserProfile is empty; the lookup does not throw, and the handler
    answers with the result [null], not with the error body. *)
Lemma lookup_without_profile_is_no_error :
  let uuid := "0b30557a-9fc4-490e-b358-7da2c7ec1136" in
  let w := world_half_logged_in in
  session_user_id uuid w = (Return (VNum 1), w)
  /\ tbl_UserProfile w = []
  /\ fst (get_userprofile_by_uuid uuid w) = Return VNull
  /\ (~ exists e, fst (get_userprofile_by_uuid uuid w) = Throw e)
  /\ fst (get_api_v1_user uuid w) = Return (ReplyResult VNull)
  /\ ~ exists e, fst (get_api_v1_user uuid w) = Return (ReplyError e).
Proof.
  cbv zeta.
  assert (Hs : fst (get_userprofile_by_uuid "0b30557a-9fc4-490e-b358-7da2c7ec1136"
                      world_half_logged_in) = Return VNull)
    by (vm_compute; reflexivity).
  assert (Hh : fst (get_api_v1_user "0b30557a-9fc4-490e-b358-7da2c7ec1136"
                      world_half_logged_in) = Return (ReplyResult VNull))
    by (vm_compute; reflexivity).
  split; [vm_compute; reflexivity|].
  split; [vm_compute; reflexivity|].
  split; [assumption|].
  split; [intros [e He]; rewrite Hs in He; discriminate|].
  split; [assumption|].
  intros [e He]. rewrite Hh in He. discriminate.
Qed.

(** ** The scenario of the specification, end to end *)

Example scenario_alice :
  fst (post_api_v1_user (Some alice_body) world0) = Return ReplySuccess
  /\ fst (get_user_by_auth (VStr "alice") (VStr "p1") world_registered)
     = Return (VUser (Users.mk 1 "alice" "p1" 0 "local"))
  /\ fst (post_api_v1_user_session (Some alice_body) world_registered)
     = Return (ReplyUuid "0b30557a-9fc4-490e-b358-7da2c7ec1136")
  /\ fst (get_api_v1_user "0b30557a-9fc4-490e-b358-7da2c7ec1136" world_logged_in)
     = Return (ReplyResult (VProfile (UserProfile.mk 1 "gay" 1700000000005 1)))
  /\ fst (get_api_v1_user "bogus-token" world_logged_in)
     = Return (ReplyError (TypeError VUndefined))
  /\ fst (get_user_by_auth (VStr "alice") (VStr "wrong") world_registered)
     = Return VNull.
Proof. repeat split; vm_compute; reflexivity. Qed.

(** * Further properties of [server.mjs] *)

(** ** What the handlers catch *)

Ltac break_match :=
  repeat match goal with
         | |- context [match ?x with _ => _ end] => destruct x eqn:?; cbn in *
         | |- context [if ?b then _ else _] => destruct b eqn:?; cbn in *
         end.

(** The [try]/[catch] of the three handlers: whatever the body does, the
    handler returns; an error of the body is logged and becomes the error
    body. *)
Lemma try_catch_reply (m : M reply) (w : World) :
  (forall e w1, m w <> (Return (ReplyError e), w1)) ->
  exists rep w',
    try_catch m (fun err => console_error err >> ret (ReplyError err)) w
    = (Return rep, w')
    /\ forall e, rep = ReplyError e -> last (console w') = Some (LogError e).
Proof.
  intros Hm. unfold try_catch.
  destruct (m w) as [[rep|e] w1] eqn:Hrun.
  - exists rep, w1. split; [reflexivity|].
    intros e ->. exfalso. exact (Hm e w1 eq_refl).
  - eexists _, _. unfold console_error, bind, ret. split; [reflexivity|].
    intros e' [= <-]. cbn. apply last_snoc.
Qed.

(** X1: a request that reaches the [try] of its handler is always answered
    with a reply, never with an exception, and an error body is always
    preceded by [console.error] of the same error; a POST without a body
    fails on the destructuring that stands before the [try]: the exception
    leaves the handler and the world is untouched. *)
Theorem handlers_catch_errors (w : World) :
  (forall uuid, exists rep w',
      get_api_v1_user uuid w = (Return rep, w')
      /\ forall e, rep = ReplyError e -> last (console w') = Some (LogError e))
  /\ (forall b, exists rep w',
      post_api_v1_user (Some b) w = (Return rep, w')
      /\ forall e, rep = ReplyError e -> last (console w') = Some (LogError e))
  /\ (forall b, exists rep w',
      post_api_v1_user_session (Some b) w = (Return rep, w')
      /\ forall e, rep = ReplyError e -> last (console w') = Some (LogError e))
  /\ post_api_v1_user None w = (Throw (TypeError VUndefined), w)
  /\ post_api_v1_user_session None w = (Throw (TypeError VUndefined), w).
Proof.
  repeat split.
  - intros uuid. unfold get_api_v1_user. apply try_catch_reply.
    intros e w1. unfold bind at 1.
    destruct (get_userprofile_by_uuid uuid w) as [[v|e'] w2];
      unfold console_log, bind, ret; cbn; congruence.
  - intros b. unfold post_api_v1_user, destructure, bind at 1, ret. cbn.
    apply try_catch_reply.
    intros e w1. unfold bind.
    destruct (create_user _ _ _ _ w) as [[v|e'] w2]; unfold ret; congruence.
  - intros b. unfold post_api_v1_user_session, destructure, bind at 1, ret. cbn.
    apply try_catch_reply.
    intros e w1. unfold bind at 1, uuidv4. unfold bind at 1.
    destruct (get_user_by_auth _ _ _) as [[v|e'] w2];
      unfold session_assign, bind, ret; cbn; congruence.
Qed.

(** ** What each handler leaves alone *)

Lemma users_create_frame (un pw pm am : value) (w w' : World) (o : outcome Users.t) :
  users_create un pw pm am w = (o, w') ->
  tbl_UserProfile w' = tbl_UserProfile w
  /\ seq_UserProfile w' = seq_UserProfile w
  /\ user_session_buffer w' = user_session_buffer w
  /\ rng_pos w' = rng_pos w /\ console w' = console w
  /\ db_fault w' = db_fault w /\ db_delay w' = db_delay w /\ rng w' = rng w.
Proof.
  unfold users_create, db_query, bind, throw.
  destruct un, pw, pm, am; try (intros [= <- <-]; cbn; tauto);
    destruct (db_fault w (db_calls w)); intros [= <- <-]; cbn; tauto.
Qed.

Lemma userProfile_create_frame (g : string) (b uid : Z) (w w' : World)
      (o : outcome UserProfile.t) :
  userProfile_create g b uid w = (o, w') ->
  tbl_Users w' = tbl_Users w
  /\ seq_Users w' = seq_Users w
  /\ user_session_buffer w' = user_session_buffer w
  /\ rng_pos w' = rng_pos w /\ console w' = console w
  /\ db_fault w' = db_fault w /\ db_delay w' = db_delay w /\ rng w' = rng w.
Proof.
  unfold userProfile_create, db_query, bind.
  destruct (db_fault w (db_calls w)); cbn; [intros [= <- <-]; cbn; tauto|].
  destruct (negb _); [intros [= <- <-]; cbn; tauto|].
  destruct (existsb _ (tbl_UserProfile w)); intros [= <- <-]; cbn; tauto.
Qed.

Lemma create_user_frame (un pw pm am : value) (w w' : World) (o : outcome value) :
  create_user un pw pm am w = (o, w') ->
  user_session_buffer w' = user_session_buffer w
  /\ rng_pos w' = rng_pos w
  /\ db_fault w' = db_fault w /\ db_delay w' = db_delay w /\ rng w' = rng w.
Proof.
  unfold create_user, bind at 1.
  destruct (users_create un pw pm am w) as [[user|e] w1] eqn:Hu;
    apply users_create_frame in Hu as (_ & _ & HB & HR & _ & HF & HD & HG);
    [|intros [= <- <-]; tauto].
  unfold bind at 1, new_Date. unfold bind at 1.
  destruct (userProfile_create _ _ _ w1) as [[profile|e] w2] eqn:Hp;
    apply userProfile_create_frame in Hp as (_ & _ & HB' & HR' & _ & HF' & HD' & HG');
    unfold console_log, bind, ret; intros [= <- <-]; cbn;
    rewrite ?HB', ?HR', ?HF', ?HD', ?HG'; tauto.
Qed.

Lemma get_userprofile_by_uuid_frame (uuid : string) (w w' : World) (o : outcome value) :
  get_userprofile_by_uuid uuid w = (o, w') ->
  tbl_Users w' = tbl_Users w /\ tbl_UserProfile w' = tbl_UserProfile w
  /\ seq_Users w' = seq_Users w /\ seq_UserProfile w' = seq_UserProfile w
  /\ user_session_buffer w' = user_session_buffer w
  /\ rng_pos w' = rng_pos w /\ console w' = console w.
Proof.
  unfold get_userprofile_by_uuid, session_user_id, get_user_id,
         userProfile_findFirst, db_query, bind, ret, throw.
  destruct (get_property (user_session_buffer w) uuid) as [| |n|s|u|p|k];
    cbn; try (intros [= <- <-]; cbn; tauto);
    destruct (db_fault w (db_calls w)); intros [= <- <-]; cbn; tauto.
Qed.

(** The three handlers, cut open at their [try] block. *)
Lemma get_api_v1_user_run (uuid : string) (w : World) :
  get_api_v1_user uuid w
  = match get_userprofile_by_uuid uuid w with
    | (Return result, w1) =>
        (Return (ReplyResult result), set_console (console w1 ++ [LogValue result]) w1)
    | (Throw err, w1) =>
        (Return (ReplyError err), set_console (console w1 ++ [LogError err]) w1)
    end.
Proof.
  unfold get_api_v1_user, try_catch, bind at 1.
  destruct (get_userprofile_by_uuid uuid w) as [[v|e] w1]; reflexivity.
Qed.

Lemma post_api_v1_user_run (b : Body) (w : World) :
  post_api_v1_user (Some b) w
  = match create_user (body_username b) (body_password b) (VNum 0) (VStr "local") w with
    | (Return _, w1) => (Return ReplySuccess, w1)
    | (Throw err, w1) =>
        (Return (ReplyError err), set_console (console w1 ++ [LogError err]) w1)
    end.
Proof.
  unfold post_api_v1_user, destructure, bind at 1, ret. cbn.
  unfold try_catch, bind at 1.
  destruct (create_user _ _ _ _ w) as [[v|e] w1]; reflexivity.
Qed.

Lemma post_api_v1_user_session_run (b : Body) (w : World) :
  post_api_v1_user_session (Some b) w
  = match get_user_by_auth (body_username b) (body_password b) w with
    | (Return result, w1) =>
        (Return (ReplyUuid (v4 (random_bytes w))),
         set_user_session_buffer
           (<[v4 (random_bytes w) := result]> (user_session_buffer w1))
           (advance_rng 16 w1))
    | (Throw err, w1) =>
        (Return (ReplyError err),
         set_console (console w1 ++ [LogError err]) (advance_rng 16 w1))
    end.
Proof.
  unfold post_api_v1_user_session, destructure, bind at 1, ret. cbn.
  unfold try_catch, bind at 1, uuidv4. unfold bind at 1.
  rewrite get_user_by_auth_advance_rng.
  destruct (get_user_by_auth _ _ w) as [[v|e] w1]; reflexivity.
Qed.

(** X2: the profile handler changes neither table, neither key sequence,
    nor the session buffer, nor the random source; the registration handler
    never touches the session buffer or the random source; the session
    handler never touches the tables or their key sequences. *)
Theorem handlers_footprint (w : World) :
  (forall uuid,
      let w' := snd (get_api_v1_user uuid w) in
      tbl_Users w' = tbl_Users w /\ tbl_UserProfile w' = tbl_UserProfile w
      /\ seq_Users w' = seq_Users w /\ seq_UserProfile w' = seq_UserProfile w
      /\ user_session_buffer w' = user_session_buffer w
      /\ rng_pos w' = rng_pos w)
  /\ (forall body,
      let w' := snd (post_api_v1_user body w) in
      user_session_buffer w' = user_session_buffer w /\ rng_pos w' = rng_pos w)
  /\ (forall body,
      let w' := snd (post_api_v1_user_session body w) in
      tbl_Users w' = tbl_Users w /\ tbl_UserProfile w' = tbl_UserProfile w
      /\ seq_Users w' = seq_Users w /\ seq_UserProfile w' = seq_UserProfile w).
Proof.
  split; [|split].
  - intros uuid. cbv zeta. rewrite get_api_v1_user_run.
    destruct (get_userprofile_by_uuid uuid w) as [[v|e] w1] eqn:Hrun;
      apply get_userprofile_by_uuid_frame in Hrun; cbn; tauto.
  - intros [b|]; [|cbn; tauto]. cbv zeta. rewrite post_api_v1_user_run.
    destruct (create_user _ _ _ _ w) as [[v|e] w1] eqn:Hrun;
      apply create_user_frame in Hrun; cbn; tauto.
  - intros [b|]; [|cbn; tauto]. cbv zeta. rewrite post_api_v1_user_session_run.
    pose proof (get_user_by_auth_read_only (body_username b) (body_password b) w) as Hf.
    destruct (get_user_by_auth _ _ w) as [[v|e] w1]; cbn in Hf |- *; tauto.
Qed.

(** ** When the database is down, when the arguments are wrong *)

Lemma users_create_Throw (un pw pm am : value) (w w' : World) (e : error) :
  users_create un pw pm am w = (Throw e, w') ->
  tbl_Users w' = tbl_Users w /\ seq_Users w' = seq_Users w.
Proof.
  unfold users_create, db_query, bind, throw.
  destruct un, pw, pm, am; try (intros [= <- <-]; cbn; tauto);
    destruct (db_fault w (db_calls w)); intros [= <- <-]; cbn; tauto.
Qed.

Lemma users_create_fault (un pw pm am : value) (w : World) :
  db_fault w (db_calls w) = true ->
  exists e w', users_create un pw pm am w = (Throw e, w').
Proof.
  intros Hdown. unfold users_create, db_query, bind, throw.
  destruct un, pw, pm, am; try (eexists _, _; reflexivity).
  rewrite Hdown. eexists _, _. reflexivity.
Qed.

Lemma get_user_by_auth_fault (un pw : value) (w : World) :
  db_fault w (db_calls w) = true ->
  exists e w', get_user_by_auth un pw w = (Throw e, w').
Proof.
  intros Hdown. unfold_server.
  destruct (where_String un) as [cu|]; [|eexists _, _; reflexivity].
  destruct (where_String pw) as [cp|]; [|eexists _, _; reflexivity].
  cbn. rewrite Hdown. eexists _, _. reflexivity.
Qed.

Lemma get_userprofile_by_uuid_fault (uuid : string) (w : World) :
  db_fault w (db_calls w) = true ->
  exists e w', get_userprofile_by_uuid uuid w = (Throw e, w').
Proof.
  intros Hdown.
  unfold get_userprofile_by_uuid, session_user_id, get_user_id,
         userProfile_findFirst, db_query, bind, ret, throw.
  destruct (get_property (user_session_buffer w) uuid) as [| |n|s|u|p|k];
    cbn; rewrite ?Hdown; eexists _, _; reflexivity.
Qed.

(** X3: while the database cannot be reached, no request succeeds (the
    answer is the error body, or the exception of a missing body) and no
    request changes a table or the session buffer; in particular a login
    stores no session. *)
Theorem unreachable_store_no_effect (r : request) (w : World) :
  db_fault w (db_calls w) = true ->
  failed (fst (handle r w))
  /\ tbl_Users (snd (handle r w)) = tbl_Users w
  /\ tbl_UserProfile (snd (handle r w)) = tbl_UserProfile w
  /\ user_session_buffer (snd (handle r w)) = user_session_buffer w.
Proof.
  intros Hdown. destruct r as [uuid|[b|]|[b|]]; cbn [handle];
    try (cbn; tauto).
  - rewrite get_api_v1_user_run.
    destruct (get_userprofile_by_uuid_fault uuid w Hdown) as (e & w1 & Hrun).
    rewrite Hrun. apply get_userprofile_by_uuid_frame in Hrun. cbn. tauto.
  - rewrite post_api_v1_user_run.
    destruct (users_create_fault (body_username b) (body_password b)
                (VNum 0) (VStr "local") w Hdown) as (e & w1 & Hu).
    assert (Hrun : create_user (body_username b) (body_password b)
                     (VNum 0) (VStr "local") w = (Throw e, w1))
      by (unfold create_user, bind at 1; rewrite Hu; reflexivity).
    rewrite Hrun. cbn.
    pose proof (users_create_Throw _ _ _ _ _ _ _ Hu) as [HU _].
    apply users_create_frame in Hu. tauto.
  - rewrite post_api_v1_user_session_run.
    pose proof (get_user_by_auth_read_only (body_username b) (body_password b) w) as Hf.
    destruct (get_user_by_auth_fault (body_username b) (body_password b) w Hdown)
      as (e & w1 & Hrun).
    rewrite Hrun in Hf |- *. cbn in Hf |- *. tauto.
Qed.

Lemma unreachable_store_no_effect_witness :
  failed (fst (handle (POST_api_v1_user_session (Some alice_body)) world_down))
  /\ tbl_Users (snd (handle (POST_api_v1_user_session (Some alice_body)) world_down))
     = tbl_Users world_down
  /\ tbl_UserProfile (snd (handle (POST_api_v1_user_session (Some alice_body)) world_down))
     = tbl_UserProfile world_down
  /\ user_session_buffer (snd (handle (POST_api_v1_user_session (Some alice_body)) world_down))
     = user_session_buffer world_down.
Proof.
  apply (unreachable_store_no_effect (POST_api_v1_user_session (Some alice_body))
           world_down).
  reflexivity.
Defined.

(** X4: a registration whose username or password is not a string (the
    property is missing from the body, or is a number or [null]) is refused
    before the database is asked: the answer is the error body with the
    validation error, and nothing but the console has changed. *)
Theorem register_requires_strings (b : Body) (w : World) :
  (forall s, body_username b <> VStr s) \/ (forall s, body_password b <> VStr s) ->
  post_api_v1_user (Some b) w
  = (Return (ReplyError PrismaClientValidationError),
     set_console (console w ++ [LogError PrismaClientValidationError]) w).
Proof.
  intros Hbad. rewrite post_api_v1_user_run.
  assert (Hrun : create_user (body_username b) (body_password b)
                   (VNum 0) (VStr "local") w
                 = (Throw PrismaClientValidationError, w)).
  { unfold create_user, bind at 1, users_create, throw.
    destruct (body_username b) as [| |n|s|u|p|k], (body_password b) as [| |n'|s'|u'|p'|k'];
      try reflexivity.
    destruct Hbad as [Hbad|Hbad]; exfalso; eapply Hbad; reflexivity. }
  rewrite Hrun. reflexivity.
Qed.

Lemma register_requires_strings_witness :
  post_api_v1_user (Some (mkBody (VStr "carol") VUndefined)) world_registered
  = (Return (ReplyError PrismaClientValidationError),
     set_console (console world_registered ++ [LogError PrismaClientValidationError])
                 world_registered).
Proof.
  apply (register_requires_strings (mkBody (VStr "carol") VUndefined) world_registered).
  right. intros s. discriminate.
Defined.

(** ** What a request does to the tables and to the session buffer *)

Lemma userProfile_create_key (g : string) (b uid : Z) (w1 w2 : World)
      (profile : UserProfile.t) :
  userProfile_create g b uid w1 = (Return profile, w2) ->
  forall q, q ∈ tbl_UserProfile w1 ->
            UserProfile.profile_id q < UserProfile.profile_id profile.
Proof.
  unfold userProfile_create, db_query, bind.
  destruct (db_fault w1 (db_calls w1)); [discriminate|]. cbn.
  destruct (negb _); [discriminate|].
  destruct (existsb _ (tbl_UserProfile w1)); [discriminate|].
  intros [= <- <-] q Hq. cbn. apply autoincrement_above.
  apply list_elem_of_fmap. exists q. auto.
Qed.

Lemma create_user_grows (un pw pm am : value) (w w' : World) (o : outcome value) :
  create_user un pw pm am w = (o, w') -> grows w w'.
Proof.
  unfold create_user, bind at 1.
  destruct (users_create un pw pm am w) as [[user|e] w1] eqn:Hu.
  - pose proof (users_create_Return _ _ _ _ _ _ _ Hu) as (HU1 & HP1 & _ & _ & _ & _ & _ & _ & _ & Hnew).
    unfold bind at 1, new_Date. unfold bind at 1.
    destruct (userProfile_create _ _ _ w1) as [[profile|e] w2] eqn:Hp.
    + pose proof (userProfile_create_key _ _ _ _ _ _ Hp) as Hkey.
      apply userProfile_create_Return in Hp
        as (HP2 & HU2 & _ & _ & _ & _ & _ & Hid & Hnone).
      unfold console_log, bind, ret. intros [= <- <-]. unfold grows. cbn.
      right. exists user. rewrite HU2, HU1, HP2, HP1.
      split; [reflexivity|]. split; [assumption|].
      right. exists profile. split; [reflexivity|]. split; [assumption|].
      intros q Hq. rewrite <- HP1 in Hq. auto.
    + apply userProfile_create_Throw in Hp as (HP2 & HU2).
      intros [= <- <-]. right. exists user. rewrite HU2, HU1, HP2, HP1.
      split; [reflexivity|]. split; [assumption|]. left. reflexivity.
  - pose proof (users_create_Throw _ _ _ _ _ _ _ Hu) as [HU _].
    apply users_create_frame in Hu as (HP & _).
    intros [= <- <-]. left. auto.
Qed.

Lemma grows_refl (w w' : World) :
  tbl_Users w' = tbl_Users w -> tbl_UserProfile w' = tbl_UserProfile w -> grows w w'.
Proof. intros HU HP. left. auto. Qed.

(** What the query of a login can answer. *)
Lemma get_user_by_auth_Return_row (un pw : value) (w w1 : World) (result : value) :
  get_user_by_auth un pw w = (Return result, w1) ->
  result = VNull \/ exists u, result = VUser u /\ u ∈ tbl_Users w.
Proof.
  unfold_server.
  destruct (where_String un) as [cu|]; [|discriminate].
  destruct (where_String pw) as [cp|]; [|discriminate].
  cbn. destruct (db_fault w (db_calls w)); [discriminate|]. cbn.
  pose proof (find_first (fun u => satisfies cu (Users.username u)
                                   && satisfies cp (Users.password u)) (tbl_Users w)) as Hf.
  destruct (find _ (tbl_Users w)) as [u|]; intros [= <- <-]; [|left; reflexivity].
  right. exists u. split; [reflexivity|].
  destruct Hf as (l1 & l2 & -> & _). apply elem_of_app. right. left.
Qed.

(** One request, seen from the tables and the session buffer: the tables
    grow by a registration at most, and the buffer stays or gets one
    binding to [null] or to a row of Users. *)
Lemma handle_effect (r : request) (w : World) :
  grows w (snd (handle r w))
  /\ (user_session_buffer (snd (handle r w)) = user_session_buffer w
      \/ exists T result,
           user_session_buffer (snd (handle r w))
           = <[T := result]> (user_session_buffer w)
           /\ (result = VNull \/ exists u, result = VUser u /\ u ∈ tbl_Users w)).
Proof.
  destruct r as [uuid|[b|]|[b|]]; cbn [handle];
    try (split; [apply grows_refl; reflexivity|left; reflexivity]).
  - rewrite get_api_v1_user_run.
    destruct (get_userprofile_by_uuid uuid w) as [[v|e] w1] eqn:Hrun;
      apply get_userprofile_by_uuid_frame in Hrun as (HU & HP & _ & _ & HB & _);
      cbn; (split; [apply grows_refl; assumption|left; assumption]).
  - rewrite post_api_v1_user_run.
    destruct (create_user _ _ _ _ w) as [[v|e] w1] eqn:Hrun;
      pose proof (create_user_grows _ _ _ _ _ _ _ Hrun) as Hg;
      apply create_user_frame in Hrun as (HB & _); cbn;
      (split; [exact Hg|left; assumption]).
  - rewrite post_api_v1_user_session_run.
    pose proof (get_user_by_auth_read_only (body_username b) (body_password b) w)
      as (HU & HP & _ & _ & HB).
    destruct (get_user_by_auth _ _ w) as [[v|e] w1] eqn:Hrun; cbn in *.
    + split; [apply grows_refl; assumption|]. right.
      exists (v4 (random_bytes w)), v. rewrite HB. split; [reflexivity|].
      eapply get_user_by_auth_Return_row. eassumption.
    + split; [apply grows_refl; assumption|left; assumption].
Qed.

Lemma grows_Users (w w' : World) (u : Users.t) :
  grows w w' -> u ∈ tbl_Users w -> u ∈ tbl_Users w'.
Proof.
  intros [[-> _]|(user & -> & _)] Hu; [assumption|].
  apply elem_of_app. left. assumption.
Qed.

Lemma grows_prefix (w w' : World) :
  grows w w' ->
  tbl_Users w `prefix_of` tbl_Users w'
  /\ tbl_UserProfile w `prefix_of` tbl_UserProfile w'.
Proof.
  intros [[-> ->]|(user & -> & _ & [->|(profile & -> & _)])];
    split; try reflexivity; apply prefix_app_r; reflexivity.
Qed.

Lemma StronglySorted_snoc (l : list Z) (x : Z) :
  StronglySorted Z.lt l -> (forall y, y ∈ l -> y < x) -> StronglySorted Z.lt (l ++ [x]).
Proof.
  intros Hl Hx. apply StronglySorted_app. split; [|split].
  - intros x1 x2 H1 H2. apply list_elem_of_singleton in H2 as ->. auto.
  - assumption.
  - repeat constructor.
Qed.

Lemma grows_store_ok (w w' : World) : grows w w' -> store_ok w -> store_ok w'.
Proof.
  intros Hg (HsU & HsP & Hnd & Hfk). unfold store_ok.
  destruct Hg as [[-> ->]|(user & -> & Hnew & [->|(profile & -> & Hid & Hq)])].
  - auto.
  - rewrite map_app. cbn. split; [|split; [assumption|split; [assumption|]]].
    + apply StronglySorted_snoc; [assumption|].
      intros y Hy. apply list_elem_of_fmap in Hy as (u & -> & Hu). auto.
    + intros p Hp. destruct (Hfk p Hp) as (u & Hu & Hup).
      exists u. split; [apply elem_of_app; left|]; assumption.
  - rewrite !map_app. cbn. split; [|split; [|split]].
    + apply StronglySorted_snoc; [assumption|].
      intros y Hy. apply list_elem_of_fmap in Hy as (u & -> & Hu). auto.
    + apply StronglySorted_snoc; [assumption|].
      intros y Hy. apply list_elem_of_fmap in Hy as (q & -> & Hq'). apply Hq, Hq'.
    + apply NoDup_app. split; [assumption|]. split; [|apply NoDup_singleton].
      intros y Hy Hin. apply list_elem_of_singleton in Hin as ->.
      apply list_elem_of_fmap in Hy as (q & Heq & Hq').
      apply (proj2 (Hq q Hq')). rewrite <- Hid. congruence.
    + intros p Hp. apply elem_of_app in Hp as [Hp|Hp].
      * destruct (Hfk p Hp) as (u & Hu & Hup).
        exists u. split; [apply elem_of_app; left|]; assumption.
      * apply list_elem_of_singleton in Hp as ->.
        exists user. split; [apply elem_of_app; right; left|congruence].
Qed.

Lemma handle_keeps_integrity (r : request) (w : World) :
  store_ok w -> sessions_ok w ->
  store_ok (snd (handle r w)) /\ sessions_ok (snd (handle r w)).
Proof.
  intros Hst Hse. destruct (handle_effect r w) as [Hg Hb].
  split; [eapply grows_store_ok; eassumption|].
  intros k v Hk.
  assert (Hold : forall v, user_session_buffer w !! k = Some v ->
            v = VNull \/ exists u, v = VUser u /\ u ∈ tbl_Users (snd (handle r w))).
  { intros v' Hv'. destruct (Hse k v' Hv') as [->|(u & -> & Hu)]; [left; reflexivity|].
    right. exists u. split; [reflexivity|]. eapply grows_Users; eassumption. }
  destruct Hb as [Hb|(T & result & Hb & Hres)]; rewrite Hb in Hk; [auto|].
  destruct (decide (T = k)) as [->|Hne].
  - rewrite lookup_insert_eq in Hk. injection Hk as <-.
    destruct Hres as [->|(u & -> & Hu)]; [left; reflexivity|].
    right. exists u. split; [reflexivity|]. eapply grows_Users; eassumption.
  - rewrite lookup_insert_ne in Hk by assumption. auto.
Qed.

(** X5: the integrity of the store (keys growing in rowid order, at most
    one profile per user, every profile referring to a row of Users) and of
    the session buffer (every session is [null] or a row of Users) is kept
    by every sequence of requests, whatever the bodies, the random bytes
    and the failures of the database. *)
Theorem serve_keeps_integrity (rs : list request) (w : World) :
  store_ok w -> sessions_ok w ->
  store_ok (serve rs w) /\ sessions_ok (serve rs w).
Proof.
  revert w. induction rs as [|r rs IH]; intros w Hst Hse; cbn; [auto|].
  destruct (handle_keeps_integrity r w Hst Hse) as [Hst' Hse'].
  apply IH; assumption.
Qed.

Lemma store_ok_empty (w : World) :
  tbl_Users w = [] -> tbl_UserProfile w = [] -> store_ok w.
Proof.
  intros HU HP. unfold store_ok. rewrite HU, HP. cbn.
  repeat split; try constructor. intros p Hp. inversion Hp.
Qed.

Lemma sessions_ok_empty (w : World) : user_session_buffer w = ∅ -> sessions_ok w.
Proof. intros HB k v. rewrite HB, lookup_empty. discriminate. Qed.

(** Every world the server reaches from the empty store is consistent. *)
Lemma serve_witness_store_ok (rs : list request) : store_ok (serve rs world0).
Proof.
  revert rs.
  assert (H : forall rs w, store_ok w -> store_ok (serve rs w)).
  { induction rs as [|r rs IH]; intros w Hw; cbn; [assumption|].
    apply IH. eapply grows_store_ok; [apply handle_effect|assumption]. }
  intros rs. apply H. apply store_ok_empty; reflexivity.
Qed.

Lemma serve_keeps_integrity_witness :
  let rs := [POST_api_v1_user (Some alice_body);
             POST_api_v1_user_session (Some mallory_body);
             POST_api_v1_user (Some alice_body);
             POST_api_v1_user_session (Some alice_body);
             GET_api_v1_user "constructor"] in
  store_ok (serve rs world_flaky) /\ sessions_ok (serve rs world_flaky).
Proof.
  apply (serve_keeps_integrity _ world_flaky).
  - apply store_ok_empty; reflexivity.
  - apply sessions_ok_empty. reflexivity.
Defined.

(** X6: no sequence of requests deletes or rewrites a row, or removes a
    session: the tables of the start are prefixes of the tables of the
    end, and every token bound at the start is still bound at the end. *)
Theorem serve_never_deletes (rs : list request) (w : World) :
  tbl_Users w `prefix_of` tbl_Users (serve rs w)
  /\ tbl_UserProfile w `prefix_of` tbl_UserProfile (serve rs w)
  /\ forall k, is_Some (user_session_buffer w !! k) ->
               is_Some (user_session_buffer (serve rs w) !! k).
Proof.
  revert w. induction rs as [|r rs IH]; intros w; cbn; [auto|].
  destruct (IH (snd (handle r w))) as (HU & HP & HB).
  destruct (handle_effect r w) as [Hg Hb].
  apply grows_prefix in Hg as [HU0 HP0].
  split; [etransitivity; eassumption|].
  split; [etransitivity; eassumption|].
  intros k Hk. apply HB.
  destruct Hb as [->|(T & result & -> & _)]; [assumption|].
  destruct (decide (T = k)) as [->|Hne].
  - rewrite lookup_insert_eq. eauto.
  - rewrite lookup_insert_ne by assumption. assumption.
Qed.

(** ** Logins *)

Lemma find_snoc {A} (f : A -> bool) (l : list A) (x : A) :
  find f (l ++ [x])
  = match find f l with
    | Some y => Some y
    | None => if f x then Some x else None
    end.
Proof.
  induction l as [|a l IH]; cbn; [reflexivity|].
  destruct (f a); [reflexivity|assumption].
Qed.

Lemma find_at {A} (f : A -> bool) (l1 l2 : list A) (x : A) :
  f x = true -> (forall y, y ∈ l1 -> f y = false) -> find f (l1 ++ x :: l2) = Some x.
Proof.
  intros Hx. induction l1 as [|a l1 IH]; intros Hl1; cbn.
  - rewrite Hx. reflexivity.
  - rewrite (Hl1 a) by left. apply IH. intros y Hy. apply Hl1. by right.
Qed.

(** The query of a login, when its two arguments are strings or absent and
    the database answers. *)
Lemma get_user_by_auth_run (un pw : value) (cu cp : option string) (w : World) :
  where_String un = Some cu -> where_String pw = Some cp ->
  db_fault w (db_calls w) = false ->
  get_user_by_auth un pw w
  = (Return (nullable VUser
               (find (fun u => satisfies cu (Users.username u)
                               && satisfies cp (Users.password u)) (tbl_Users w))),
     tick_db w).
Proof.
  intros Hu Hp Hup. unfold_server. rewrite Hu, Hp. cbn. rewrite Hup. reflexivity.
Qed.

(** X7: the complement of freshness.  When the token printed from the next
    random bytes is already bound, the login does not notice: it answers
    with that token and rebinds it to the row it found, so that whoever
    held the token now resolves to the new row; the other bindings and the
    size of the buffer stay. *)
Theorem issue_collision_overwrites (w : World) (body : Body) (result old : value) :
  fst (get_user_by_auth (body_username body) (body_password body) w) = Return result ->
  user_session_buffer w !! v4 (random_bytes w) = Some old ->
  exists T w',
    post_api_v1_user_session (Some body) w = (Return (ReplyUuid T), w')
    /\ user_session_buffer w !! T = Some old
    /\ user_session_buffer w' !! T = Some result
    /\ (forall k, k <> T -> user_session_buffer w' !! k = user_session_buffer w !! k)
    /\ size (user_session_buffer w') = size (user_session_buffer w).
Proof.
  intros Hr Hold.
  destruct (post_api_v1_user_session_Return w body result Hr)
    as (w' & Hrun & Hbuf & _).
  exists (v4 (random_bytes w)), w'. rewrite Hbuf.
  split; [assumption|]. split; [assumption|].
  split; [apply lookup_insert_eq|]. split.
  - intros k Hne. apply lookup_insert_ne. congruence.
  - apply map_size_insert_Some. eauto.
Qed.

Lemma issue_collision_overwrites_witness :
  exists T w',
    post_api_v1_user_session (Some bob_body) world_stuck_alice
    = (Return (ReplyUuid T), w')
    /\ user_session_buffer world_stuck_alice !! T
       = Some (VUser (Users.mk 1 "alice" "p1" 0 "local"))
    /\ user_session_buffer w' !! T = Some (VUser (Users.mk 2 "bob" "p2" 0 "local"))
    /\ (forall k, k <> T ->
          user_session_buffer w' !! k = user_session_buffer world_stuck_alice !! k)
    /\ size (user_session_buffer w') = size (user_session_buffer world_stuck_alice).
Proof.
  apply (issue_collision_overwrites world_stuck_alice bob_body
           (VUser (Users.mk 2 "bob" "p2" 0 "local"))
           (VUser (Users.mk 1 "alice" "p1" 0 "local"))).
  - vm_compute. reflexivity.
  - vm_compute. reflexivity.
Defined.

(** X8: a login whose body has a username but no password does not check
    the password: when the database answers, the token is bound to the
    first row of Users with that username, whatever its password. *)
Theorem login_without_password (un : string) (w : World)
        (before after : list Users.t) (u : Users.t) :
  db_fault w (db_calls w) = false ->
  tbl_Users w = before ++ u :: after ->
  Users.username u = un ->
  (forall u', u' ∈ before -> Users.username u' <> un) ->
  exists T w',
    post_api_v1_user_session (Some (mkBody (VStr un) VUndefined)) w
    = (Return (ReplyUuid T), w')
    /\ user_session_buffer w' !! T = Some (VUser u).
Proof.
  intros Hup Htbl Hu Hbefore.
  assert (Hr : fst (get_user_by_auth (VStr un) VUndefined w) = Return (VUser u)).
  { rewrite (get_user_by_auth_run (VStr un) VUndefined (Some un) None w)
      by (assumption || reflexivity).
    cbn. rewrite Htbl, find_at; [reflexivity| |].
    - cbn. rewrite andb_true_r. by apply bool_decide_eq_true.
    - intros y Hy. cbn. rewrite andb_true_r. apply bool_decide_eq_false. auto. }
  destruct (post_api_v1_user_session_Return w (mkBody (VStr un) VUndefined) (VUser u) Hr)
    as (w' & Hrun & Hbuf & _).
  exists (v4 (random_bytes w)), w'. split; [assumption|].
  rewrite Hbuf. apply lookup_insert_eq.
Qed.

Lemma login_without_password_witness :
  exists T w',
    post_api_v1_user_session (Some (mkBody (VStr "alice") VUndefined)) world_registered
    = (Return (ReplyUuid T), w')
    /\ user_session_buffer w' !! T = Some (VUser (Users.mk 1 "alice" "p1" 0 "local")).
Proof.
  apply (login_without_password "alice" world_registered [] []
           (Users.mk 1 "alice" "p1" 0 "local")).
  - vm_compute. reflexivity.
  - vm_compute. reflexivity.
  - reflexivity.
  - intros u' Hu'. inversion Hu'.
Defined.

(** X9: a login whose body has neither username nor password is answered
    with a session for the first row of Users, when the table has a row and
    the database answers. *)
Theorem login_without_credentials (w : World) (u : Users.t) (rest : list Users.t) :
  db_fault w (db_calls w) = false ->
  tbl_Users w = u :: rest ->
  exists T w',
    post_api_v1_user_session (Some (mkBody VUndefined VUndefined)) w
    = (Return (ReplyUuid T), w')
    /\ user_session_buffer w' !! T = Some (VUser u)
    /\ session_user_id T w' = (Return (VNum (Users.user_id u)), w').
Proof.
  intros Hup Htbl.
  assert (Hr : fst (get_user_by_auth VUndefined VUndefined w) = Return (VUser u)).
  { rewrite (get_user_by_auth_run VUndefined VUndefined None None w)
      by (assumption || reflexivity).
    cbn. rewrite Htbl. reflexivity. }
  destruct (post_api_v1_user_session_Return w (mkBody VUndefined VUndefined) (VUser u) Hr)
    as (w' & Hrun & Hbuf & _).
  exists (v4 (random_bytes w)), w'. split; [assumption|].
  assert (Hk : user_session_buffer w' !! v4 (random_bytes w) = Some (VUser u))
    by (rewrite Hbuf; apply lookup_insert_eq).
  split; [assumption|]. apply session_user_id_VUser. assumption.
Qed.

Lemma login_without_credentials_witness :
  exists T w',
    post_api_v1_user_session (Some (mkBody VUndefined VUndefined)) world_registered
    = (Return (ReplyUuid T), w')
    /\ user_session_buffer w' !! T = Some (VUser (Users.mk 1 "alice" "p1" 0 "local"))
    /\ session_user_id T w' = (Return (VNum 1), w').
Proof.
  apply (login_without_credentials world_registered
           (Users.mk 1 "alice" "p1" 0 "local") []).
  - vm_compute. reflexivity.
  - vm_compute. reflexivity.
Defined.

(** ** Registration, then login, then lookup *)

Lemma NoDup_fmap_eq {A B} (f : A -> B) (l : list A) (x y : A) :
  NoDup (map f l) -> x ∈ l -> y ∈ l -> f x = f y -> x = y.
Proof.
  induction l as [|a l IH]; cbn; intros Hnd Hx Hy Hxy; [inversion Hx|].
  apply NoDup_cons in Hnd as [Ha Hnd].
  apply elem_of_cons in Hx as [->|Hx]; apply elem_of_cons in Hy as [->|Hy].
  - reflexivity.
  - exfalso. apply Ha. rewrite Hxy. apply list_elem_of_fmap. eauto.
  - exfalso. apply Ha. rewrite <- Hxy. apply list_elem_of_fmap. eauto.
  - auto.
Qed.

(** The lookup of a token bound to a row of Users, when the database
    answers. *)
Lemma get_userprofile_by_uuid_run (uuid : string) (u : Users.t) (w : World) :
  user_session_buffer w !! uuid = Some (VUser u) ->
  db_fault w (db_calls w) = false ->
  get_userprofile_by_uuid uuid w
  = (Return (nullable VProfile
               (find (fun p => satisfies (Some (Users.user_id u)) (UserProfile.user_id p))
                     (tbl_UserProfile w))),
     tick_db w).
Proof.
  intros Hk Hup. destruct (session_user_id_VUser uuid u w Hk) as [_ Hs].
  unfold get_userprofile_by_uuid, bind at 1. rewrite Hs.
  unfold userProfile_findFirst, db_query, bind, ret. cbn. rewrite Hup. reflexivity.
Qed.

(** With [user_id] unique in UserProfile, the first profile of a user is
    the profile of that user. *)
Lemma get_userprofile_by_uuid_unique (uuid : string) (u : Users.t) (p : UserProfile.t)
      (w : World) :
  user_session_buffer w !! uuid = Some (VUser u) ->
  p ∈ tbl_UserProfile w ->
  UserProfile.user_id p = Users.user_id u ->
  NoDup (map UserProfile.user_id (tbl_UserProfile w)) ->
  db_fault w (db_calls w) = false ->
  get_userprofile_by_uuid uuid w = (Return (VProfile p), tick_db w).
Proof.
  intros Hk Hp Hid Hnd Hup.
  rewrite (get_userprofile_by_uuid_run uuid u w Hk Hup).
  pose proof (find_first
    (fun q => satisfies (Some (Users.user_id u)) (UserProfile.user_id q))
    (tbl_UserProfile w)) as Hf.
  destruct (find _ (tbl_UserProfile w)) as [q|].
  - destruct Hf as (l1 & l2 & Hl & Hq & _). rewrite satisfies_Some in Hq.
    assert (q ∈ tbl_UserProfile w)
      by (rewrite Hl; apply elem_of_app; right; left).
    assert (q = p) as -> by (eapply NoDup_fmap_eq; eauto; congruence).
    reflexivity.
  - apply Hf in Hp. cbn in Hp. apply bool_decide_eq_false in Hp. contradiction.
Qed.

(** X10: when the token is bound to a row of Users, the table holds a
    profile for that user, [user_id] is unique in UserProfile and the
    database answers, the profile handler answers with that very profile. *)
Theorem lookup_returns_profile (uuid : string) (u : Users.t) (p : UserProfile.t)
        (w : World) :
  user_session_buffer w !! uuid = Some (VUser u) ->
  p ∈ tbl_UserProfile w ->
  UserProfile.user_id p = Users.user_id u ->
  NoDup (map UserProfile.user_id (tbl_UserProfile w)) ->
  db_fault w (db_calls w) = false ->
  fst (get_userprofile_by_uuid uuid w) = Return (VProfile p)
  /\ fst (get_api_v1_user uuid w) = Return (ReplyResult (VProfile p)).
Proof.
  intros Hk Hp Hid Hnd Hup.
  rewrite get_api_v1_user_run.
  rewrite (get_userprofile_by_uuid_unique uuid u p w) by assumption.
  split; reflexivity.
Qed.

Lemma lookup_returns_profile_witness :
  fst (get_userprofile_by_uuid "0b30557a-9fc4-490e-b358-7da2c7ec1136" world_logged_in)
  = Return (VProfile (UserProfile.mk 1 "gay" 1700000000005 1))
  /\ fst (get_api_v1_user "0b30557a-9fc4-490e-b358-7da2c7ec1136" world_logged_in)
     = Return (ReplyResult (VProfile (UserProfile.mk 1 "gay" 1700000000005 1))).
Proof.
  apply (lookup_returns_profile "0b30557a-9fc4-490e-b358-7da2c7ec1136"
           (Users.mk 1 "alice" "p1" 0 "local")
           (UserProfile.mk 1 "gay" 1700000000005 1) world_logged_in).
  - vm_compute. reflexivity.
  - vm_compute. left.
  - reflexivity.
  - vm_compute. repeat constructor. intros H. inversion H.
  - vm_compute. reflexivity.
Defined.

(** The query of a login with two strings, when the database answers. *)
Lemma get_user_by_auth_strings (un pw : string) (w : World) :
  db_fault w (db_calls w) = false ->
  fst (get_user_by_auth (VStr un) (VStr pw) w)
  = Return (nullable VUser
              (find (fun u => satisfies (Some un) (Users.username u)
                              && satisfies (Some pw) (Users.password u)) (tbl_Users w))).
Proof.
  intros Hup.
  rewrite (get_user_by_auth_run (VStr un) (VStr pw) (Some un) (Some pw) w)
    by (assumption || reflexivity).
  reflexivity.
Qed.

(** X11: after a successful registration with credentials no row had
    before, a login with these credentials finds the new row. *)
Theorem register_then_authenticate (un pw : string) (pm am : value) (w w' : World)
        (r : value) :
  create_user (VStr un) (VStr pw) pm am w = (Return r, w') ->
  (forall u, u ∈ tbl_Users w -> ~ credentials_match un pw u) ->
  db_fault w' (db_calls w') = false ->
  exists user,
    tbl_Users w' = tbl_Users w ++ [user]
    /\ credentials_match un pw user
    /\ fst (get_user_by_auth (VStr un) (VStr pw) w') = Return (VUser user).
Proof.
  intros Hrun Hfresh Hup.
  destruct (create_user_Return _ _ _ _ _ _ _ Hrun)
    as (user & w1 & profile & w2 & Hu & Hp & _ & ->).
  apply users_create_Return in Hu as (HU1 & _ & _ & _ & _ & [= Hun] & [= Hpw] & _).
  apply userProfile_create_Return in Hp as (_ & HU2 & _).
  assert (HU : tbl_Users (set_console (console w2 ++ [LogValue (VUser user)]) w2)
               = tbl_Users w ++ [user]) by (cbn; congruence).
  assert (Hm : credentials_match un pw user) by (split; congruence).
  exists user. split; [assumption|]. split; [assumption|].
  rewrite get_user_by_auth_strings by assumption.
  rewrite HU, find_snoc.
  pose proof (find_first (fun u => satisfies (Some un) (Users.username u)
                                   && satisfies (Some pw) (Users.password u))
                         (tbl_Users w)) as Hf.
  destruct (find _ (tbl_Users w)) as [u0|].
  - destruct Hf as (l1 & l2 & Hl & Hu0 & _). exfalso.
    apply (Hfresh u0); [rewrite Hl; apply elem_of_app; right; left|].
    by apply satisfies_credentials.
  - apply satisfies_credentials in Hm. rewrite Hm. reflexivity.
Qed.

Lemma register_then_authenticate_witness :
  exists user,
    tbl_Users world_registered = tbl_Users world0 ++ [user]
    /\ credentials_match "alice" "p1" user
    /\ fst (get_user_by_auth (VStr "alice") (VStr "p1") world_registered)
       = Return (VUser user).
Proof.
  apply (register_then_authenticate "alice" "p1" (VNum 0) (VStr "local")
           world0 world_registered VUndefined).
  - vm_compute. reflexivity.
  - intros u Hu. vm_compute in Hu. inversion Hu.
  - vm_compute. reflexivity.
Defined.

(** X12: usernames are not unique.  A registration with credentials that a
    row already has succeeds and adds a second row with them; a login with
    these credentials still finds a row of the old table, one with a
    smaller [user_id], never the new row. *)
Theorem duplicate_registration_shadowed (un pw : string) (pm am : value) (w w' : World)
        (r : value) (u0 : Users.t) :
  create_user (VStr un) (VStr pw) pm am w = (Return r, w') ->
  u0 ∈ tbl_Users w -> credentials_match un pw u0 ->
  db_fault w' (db_calls w') = false ->
  exists user u1,
    tbl_Users w' = tbl_Users w ++ [user]
    /\ credentials_match un pw user
    /\ u1 ∈ tbl_Users w /\ credentials_match un pw u1
    /\ Users.user_id u1 < Users.user_id user
    /\ fst (get_user_by_auth (VStr un) (VStr pw) w') = Return (VUser u1)
    /\ fst (get_user_by_auth (VStr un) (VStr pw) w') <> Return (VUser user).
Proof.
  intros Hrun Hu0 Hm0 Hup.
  destruct (create_user_Return _ _ _ _ _ _ _ Hrun)
    as (user & w1 & profile & w2 & Hu & Hp & _ & ->).
  apply users_create_Return
    in Hu as (HU1 & _ & _ & _ & _ & [= Hun] & [= Hpw] & _ & _ & Hnew).
  apply userProfile_create_Return in Hp as (_ & HU2 & _).
  assert (HU : tbl_Users (set_console (console w2 ++ [LogValue (VUser user)]) w2)
               = tbl_Users w ++ [user]) by (cbn; congruence).
  assert (Hm : credentials_match un pw user) by (split; congruence).
  rewrite get_user_by_auth_strings by assumption.
  rewrite HU, find_snoc.
  pose proof (find_first (fun u => satisfies (Some un) (Users.username u)
                                   && satisfies (Some pw) (Users.password u))
                         (tbl_Users w)) as Hf.
  destruct (find _ (tbl_Users w)) as [u1|].
  - destruct Hf as (l1 & l2 & Hl & Hu1 & _).
    assert (Hin : u1 ∈ tbl_Users w) by (rewrite Hl; apply elem_of_app; right; left).
    pose proof (Hnew u1 Hin) as Hlt.
    exists user, u1. repeat split; try assumption; try apply Hm;
      try (by apply satisfies_credentials in Hu1 as [? ?]).
    cbn. intros [= ->]. lia.
  - exfalso. apply Hf in Hu0. apply not_satisfies_credentials in Hu0. contradiction.
Qed.

Lemma duplicate_registration_shadowed_witness :
  exists user u1,
    tbl_Users world_twice = tbl_Users world_registered ++ [user]
    /\ credentials_match "alice" "p1" user
    /\ u1 ∈ tbl_Users world_registered /\ credentials_match "alice" "p1" u1
    /\ Users.user_id u1 < Users.user_id user
    /\ fst (get_user_by_auth (VStr "alice") (VStr "p1") world_twice) = Return (VUser u1)
    /\ fst (get_user_by_auth (VStr "alice") (VStr "p1") world_twice) <> Return (VUser user).
Proof.
  apply (duplicate_registration_shadowed "alice" "p1" (VNum 0) (VStr "local")
           world_registered world_twice VUndefined
           (Users.mk 1 "alice" "p1" 0 "local")).
  - vm_compute. reflexivity.
  - vm_compute. left.
  - split; reflexivity.
  - vm_compute. reflexivity.
Defined.

(** X13: in a store whose keys grow in rowid order, the row a login finds
    is the oldest of the rows that carry the credentials: it carries them,
    and no row that carries them has a smaller [user_id]. *)
Theorem authenticate_oldest_row (un pw : string) (w : World) (u : Users.t) :
  store_ok w ->
  fst (get_user_by_auth (VStr un) (VStr pw) w) = Return (VUser u) ->
  u ∈ tbl_Users w /\ credentials_match un pw u
  /\ forall u', u' ∈ tbl_Users w -> credentials_match un pw u' ->
                Users.user_id u <= Users.user_id u'.
Proof.
  intros (Hsorted & _) Hr.
  destruct (db_fault w (db_calls w)) eqn:Hup.
  { destruct (get_user_by_auth_fault (VStr un) (VStr pw) w Hup) as (e & w1 & Hrun).
    rewrite Hrun in Hr. discriminate. }
  rewrite get_user_by_auth_strings in Hr by assumption.
  pose proof (find_first (fun u => satisfies (Some un) (Users.username u)
                                   && satisfies (Some pw) (Users.password u))
                         (tbl_Users w)) as Hf.
  destruct (find _ (tbl_Users w)) as [u1|]; [|discriminate].
  injection Hr as ->.
  destruct Hf as (l1 & l2 & Hl & Hu & Hl1).
  split; [rewrite Hl; apply elem_of_app; right; left|].
  split; [by apply satisfies_credentials|].
  intros u' Hu' Hm'. rewrite Hl in Hu', Hsorted.
  apply elem_of_app in Hu' as [Hu'|Hu'].
  - apply Hl1 in Hu'. apply not_satisfies_credentials in Hu'. contradiction.
  - apply elem_of_cons in Hu' as [->|Hu']; [lia|].
    rewrite map_app in Hsorted. cbn in Hsorted.
    apply StronglySorted_app in Hsorted as (_ & _ & Hs).
    apply StronglySorted_cons in Hs as [Hall _].
    assert (Users.user_id u < Users.user_id u'); [|lia].
    eapply (proj1 (Forall_forall _ _) Hall).
    apply list_elem_of_fmap. eauto.
Qed.

Lemma authenticate_oldest_row_witness :
  let u := Users.mk 1 "alice" "p1" 0 "local" in
  u ∈ tbl_Users world_twice /\ credentials_match "alice" "p1" u
  /\ forall u', u' ∈ tbl_Users world_twice -> credentials_match "alice" "p1" u' ->
                Users.user_id u <= Users.user_id u'.
Proof.
  apply (authenticate_oldest_row "alice" "p1" world_twice
           (Users.mk 1 "alice" "p1" 0 "local")).
  - apply (serve_witness_store_ok
             [POST_api_v1_user (Some alice_body); POST_api_v1_user (Some alice_body)]).
  - vm_compute. reflexivity.
Defined.

Lemma existsb_false_intro {A} (f : A -> bool) (l : list A) :
  (forall x, x ∈ l -> f x = false) -> existsb f l = false.
Proof.
  induction l as [|a l IH]; intros Hl; cbn; [reflexivity|].
  rewrite (Hl a) by left. apply IH. intros x Hx. apply Hl. by right.
Qed.

(** In a consistent store no profile refers to the key the next user will
    get. *)
Lemma store_ok_next_user (w : World) (q : UserProfile.t) :
  store_ok w -> q ∈ tbl_UserProfile w ->
  UserProfile.user_id q
  <> autoincrement (seq_Users w) (map Users.user_id (tbl_Users w)).
Proof.
  intros (_ & _ & _ & Hfk) Hq. destruct (Hfk q Hq) as (u & Hu & <-).
  assert (Users.user_id u < autoincrement (seq_Users w) (map Users.user_id (tbl_Users w)));
    [|lia].
  apply autoincrement_above, list_elem_of_fmap. eauto.
Qed.

(** A registration with two strings in a consistent store, when the
    database answers twice. *)
Lemma create_user_ok (un pw : string) (pm : Z) (am : string) (w : World) :
  store_ok w ->
  db_fault w (db_calls w) = false ->
  db_fault w (S (db_calls w)) = false ->
  exists w',
    let user := Users.mk (autoincrement (seq_Users w) (map Users.user_id (tbl_Users w)))
                         un pw pm am in
    let profile :=
      UserProfile.mk (autoincrement (seq_UserProfile w)
                        (map UserProfile.profile_id (tbl_UserProfile w)))
                     "gay" (now w + Z.max 0 (db_delay w (db_calls w)))
                     (Users.user_id user) in
    create_user (VStr un) (VStr pw) (VNum pm) (VStr am) w = (Return VUndefined, w')
    /\ tbl_Users w' = tbl_Users w ++ [user]
    /\ tbl_UserProfile w' = tbl_UserProfile w ++ [profile]
    /\ user_session_buffer w' = user_session_buffer w
    /\ console w' = console w ++ [LogValue (VUser user)]
    /\ db_calls w' = S (S (db_calls w))
    /\ rng_pos w' = rng_pos w
    /\ db_fault w' = db_fault w /\ rng w' = rng w.
Proof.
  intros Hok Hup1 Hup2.
  unfold create_user, users_create, userProfile_create, new_Date, console_log,
         db_query, bind, ret.
  cbn. rewrite Hup1. cbn. rewrite Hup2. cbn.
  rewrite existsb_app. cbn.
  rewrite bool_decide_eq_true_2 by reflexivity.
  rewrite orb_true_r. cbn.
  rewrite existsb_false_intro.
  - eexists. cbn. repeat split; reflexivity.
  - intros q Hq. apply bool_decide_eq_false. by apply store_ok_next_user.
Qed.

(** X14: there is no duplicate check and no password policy.  With a
    body of two strings, whatever they are, a consistent store and a
    database that answers the two queries, the registration succeeds: it
    answers {"message": "Success"} and appends the user, with the next key,
    permission 0 and method "local", and its profile. *)
Theorem register_succeeds (un pw : string) (w : World) :
  store_ok w ->
  db_fault w (db_calls w) = false ->
  db_fault w (S (db_calls w)) = false ->
  let run := post_api_v1_user (Some (mkBody (VStr un) (VStr pw))) w in
  let user := Users.mk (autoincrement (seq_Users w) (map Users.user_id (tbl_Users w)))
                       un pw 0 "local" in
  fst run = Return ReplySuccess
  /\ tbl_Users (snd run) = tbl_Users w ++ [user]
  /\ exists profile,
       tbl_UserProfile (snd run) = tbl_UserProfile w ++ [profile]
       /\ UserProfile.user_id profile = Users.user_id user
       /\ UserProfile.gender profile = "gay".
Proof.
  intros Hok Hup1 Hup2. cbv zeta.
  destruct (create_user_ok un pw 0 "local" w Hok Hup1 Hup2)
    as (w' & Hrun & HU & HP & _).
  rewrite post_api_v1_user_run. cbn [body_username body_password].
  rewrite Hrun. cbn [fst snd].
  split; [reflexivity|]. split; [assumption|].
  eexists. split; [eassumption|]. split; reflexivity.
Qed.

Lemma register_succeeds_witness :
  let run := post_api_v1_user (Some (mkBody (VStr "alice") (VStr ""))) world_registered in
  let user := Users.mk 2 "alice" "" 0 "local" in
  fst run = Return ReplySuccess
  /\ tbl_Users (snd run) = tbl_Users world_registered ++ [user]
  /\ exists profile,
       tbl_UserProfile (snd run) = tbl_UserProfile world_registered ++ [profile]
       /\ UserProfile.user_id profile = Users.user_id user
       /\ UserProfile.gender profile = "gay".
Proof.
  apply (register_succeeds "alice" "" world_registered).
  - apply (serve_witness_store_ok [POST_api_v1_user (Some alice_body)]).
  - vm_compute. reflexivity.
  - vm_compute. reflexivity.
Defined.

Lemma random_bytes_ext (w w' : World) :
  rng w' = rng w -> rng_pos w' = rng_pos w -> random_bytes w' = random_bytes w.
Proof. intros Hr Hp. unfold random_bytes. rewrite Hr, Hp. reflexivity. Qed.

(** X15: registration, login and lookup compose.  In a consistent store
    where no row carries the credentials yet, and with a database that
    answers the four queries, registering, logging in with the same body
    and asking for the profile with the token received answers with the
    profile created by the registration. *)
Theorem register_login_lookup (un pw : string) (w : World) :
  store_ok w ->
  (forall u, u ∈ tbl_Users w -> ~ credentials_match un pw u) ->
  (forall i, (i < 4)%nat -> db_fault w (db_calls w + i) = false) ->
  let b := mkBody (VStr un) (VStr pw) in
  let w1 := snd (post_api_v1_user (Some b) w) in
  let w2 := snd (post_api_v1_user_session (Some b) w1) in
  let T := v4 (random_bytes w) in
  let user := Users.mk (autoincrement (seq_Users w) (map Users.user_id (tbl_Users w)))
                       un pw 0 "local" in
  let profile :=
    UserProfile.mk (autoincrement (seq_UserProfile w)
                      (map UserProfile.profile_id (tbl_UserProfile w)))
                   "gay" (now w + Z.max 0 (db_delay w (db_calls w)))
                   (Users.user_id user) in
  fst (post_api_v1_user (Some b) w) = Return ReplySuccess
  /\ fst (post_api_v1_user_session (Some b) w1) = Return (ReplyUuid T)
  /\ user_session_buffer w2 !! T = Some (VUser user)
  /\ fst (get_api_v1_user T w2) = Return (ReplyResult (VProfile profile)).
Proof.
  intros Hok Hfresh Hup. cbv zeta.
  assert (Hup0 : db_fault w (db_calls w) = false)
    by (rewrite <- (Hup 0%nat) by lia; f_equal; lia).
  assert (Hup1 : db_fault w (S (db_calls w)) = false)
    by (rewrite <- (Hup 1%nat) by lia; f_equal; lia).
  assert (Hup2 : db_fault w (S (S (db_calls w))) = false)
    by (rewrite <- (Hup 2%nat) by lia; f_equal; lia).
  assert (Hup3 : db_fault w (S (S (S (db_calls w)))) = false)
    by (rewrite <- (Hup 3%nat) by lia; f_equal; lia).
  destruct (create_user_ok un pw 0 "local" w Hok Hup0 Hup1)
    as (w1 & Hrun & HU & HP & HB & _ & Hcalls & Hpos & Hfault & Hrng).
  cbv zeta in Hrun, HU, HP.
  set (user := Users.mk (autoincrement (seq_Users w) (map Users.user_id (tbl_Users w)))
                        un pw 0 "local") in *.
  set (profile := UserProfile.mk _ "gay" _ _) in *.
  assert (Hok1 : store_ok w1)
    by (eapply grows_store_ok; [eapply create_user_grows; exact Hrun|assumption]).
  (* registration *)
  rewrite post_api_v1_user_run. cbn [body_username body_password].
  rewrite Hrun. cbn [fst snd]. split; [reflexivity|].
  (* login *)
  assert (Hup1' : db_fault w1 (db_calls w1) = false) by (rewrite Hfault, Hcalls; exact Hup2).
  assert (Hauth : get_user_by_auth (VStr un) (VStr pw) w1
                  = (Return (VUser user), tick_db w1)).
  { rewrite (get_user_by_auth_run (VStr un) (VStr pw) (Some un) (Some pw) w1)
      by (assumption || reflexivity).
    rewrite HU, find_snoc.
    pose proof (find_first (fun u => satisfies (Some un) (Users.username u)
                                     && satisfies (Some pw) (Users.password u))
                           (tbl_Users w)) as Hf.
    destruct (find _ (tbl_Users w)) as [u0|].
    - destruct Hf as (l1 & l2 & Hl & Hu0 & _). exfalso.
      apply (Hfresh u0); [rewrite Hl; apply elem_of_app; right; left|].
      by apply satisfies_credentials.
    - cbn. rewrite !bool_decide_eq_true_2 by reflexivity. reflexivity. }
  rewrite post_api_v1_user_session_run. cbn [body_username body_password].
  rewrite Hauth. cbn [fst snd].
  rewrite (random_bytes_ext w w1) by assumption.
  split; [reflexivity|].
  set (w2 := set_user_session_buffer _ _).
  assert (Hk : user_session_buffer w2 !! v4 (random_bytes w) = Some (VUser user))
    by apply lookup_insert_eq.
  split; [assumption|].
  (* lookup *)
  rewrite get_api_v1_user_run.
  rewrite (get_userprofile_by_uuid_unique _ user profile w2); [reflexivity|assumption| | | |].
  - cbn. rewrite HP. apply elem_of_app. right. left.
  - reflexivity.
  - cbn. apply Hok1.
  - cbn. rewrite Hfault, Hcalls. exact Hup3.
Qed.

Lemma register_login_lookup_witness :
  let b := bob_body in
  let w1 := snd (post_api_v1_user (Some b) world_logged_in) in
  let w2 := snd (post_api_v1_user_session (Some b) w1) in
  let T := v4 (random_bytes world_logged_in) in
  fst (post_api_v1_user (Some b) world_logged_in) = Return ReplySuccess
  /\ fst (post_api_v1_user_session (Some b) w1) = Return (ReplyUuid T)
  /\ user_session_buffer w2 !! T = Some (VUser (Users.mk 2 "bob" "p2" 0 "local"))
  /\ fst (get_api_v1_user T w2)
     = Return (ReplyResult (VProfile (UserProfile.mk 2 "gay" 1700000000020 2))).
Proof.
  apply (register_login_lookup "bob" "p2" world_logged_in).
  - apply (serve_witness_store_ok
             [POST_api_v1_user (Some alice_body);
              POST_api_v1_user_session (Some alice_body)]).
  - intros u Hu [Hn _]. vm_compute in Hu.
    apply elem_of_cons in Hu as [->|Hu]; [discriminate|inversion Hu].
  - intros i _. reflexivity.
Defined.

(** ** Users without a profile, tokens without a session *)

Lemma grows_no_profile (w w' : World) (u : Users.t) :
  grows w w' ->
  u ∈ tbl_Users w ->
  (forall p, p ∈ tbl_UserProfile w -> UserProfile.user_id p <> Users.user_id u) ->
  forall p, p ∈ tbl_UserProfile w' -> UserProfile.user_id p <> Users.user_id u.
Proof.
  intros [[_ ->]|(user & _ & Hnew & [->|(profile & -> & Hid & _)])] Hu Hnone;
    try assumption.
  intros p Hp. apply elem_of_app in Hp as [Hp|Hp]; [auto|].
  apply list_elem_of_singleton in Hp as ->.
  specialize (Hnew u Hu). lia.
Qed.

(** X16: a user that a failed registration left without a profile never
    gets one: whatever requests follow, no row of UserProfile refers to a
    row of Users that had no profile before. *)
Theorem user_without_profile_stays_so (rs : list request) (w : World) (u : Users.t) :
  u ∈ tbl_Users w ->
  (forall p, p ∈ tbl_UserProfile w -> UserProfile.user_id p <> Users.user_id u) ->
  Forall (fun p => UserProfile.user_id p <> Users.user_id u)
         (tbl_UserProfile (serve rs w)).
Proof.
  intros Hu Hnone. apply Forall_forall.
  revert w Hu Hnone. induction rs as [|r rs IH]; intros w Hu Hnone; cbn; [assumption|].
  destruct (handle_effect r w) as [Hg _].
  apply IH.
  - eapply grows_Users; eassumption.
  - eapply grows_no_profile; eassumption.
Qed.

Lemma user_without_profile_stays_so_witness :
  Forall (fun p => UserProfile.user_id p
                   <> Users.user_id (Users.mk 1 "alice" "p1" 0 "local"))
         (tbl_UserProfile
            (serve [POST_api_v1_user (Some alice_body);
                    POST_api_v1_user_session (Some alice_body)] world_half_registered)).
Proof.
  apply (user_without_profile_stays_so
           [POST_api_v1_user (Some alice_body);
            POST_api_v1_user_session (Some alice_body)]
           world_half_registered (Users.mk 1 "alice" "p1" 0 "local")).
  - vm_compute. left.
  - intros p Hp. vm_compute in Hp. inversion Hp.
Defined.

(** X17: a token that is not bound in the session buffer and is not the
    name of a property inherited from [Object.prototype] is refused without
    a query: the profile handler answers with the error body of the failed
    read of [user_id] on [undefined], and only the console has changed. *)
Theorem lookup_unknown_token (uuid : string) (w : World) :
  user_session_buffer w !! uuid = None ->
  uuid ∉ Object_prototype ->
  get_api_v1_user uuid w
  = (Return (ReplyError (TypeError VUndefined)),
     set_console (console w ++ [LogError (TypeError VUndefined)]) w).
Proof.
  intros Hk Hp. rewrite get_api_v1_user_run.
  unfold get_userprofile_by_uuid, bind at 1.
  rewrite (proj1 (session_user_id_absent uuid w Hk Hp)). reflexivity.
Qed.

Lemma lookup_unknown_token_witness :
  get_api_v1_user "bogus-token" world_logged_in
  = (Return (ReplyError (TypeError VUndefined)),
     set_console (console world_logged_in ++ [LogError (TypeError VUndefined)])
                 world_logged_in).
Proof.
  apply (lookup_unknown_token "bogus-token" world_logged_in).
  - vm_compute. reflexivity.
  - intros H. unfold Object_prototype in H.
    repeat (apply elem_of_cons in H as [H|H]; [discriminate|]).
    inversion H.
Defined.

(** X18: a string that names a property inherited from [Object.prototype]
    and is not bound in the session buffer is not refused: when the
    database answers, the profile handler answers with the first row of
    UserProfile, or with [null] when the table is empty. *)
Theorem lookup_inherited_name (uuid : string) (w : World) :
  user_session_buffer w !! uuid = None ->
  uuid ∈ Object_prototype ->
  db_fault w (db_calls w) = false ->
  fst (get_api_v1_user uuid w)
  = Return (ReplyResult (nullable VProfile (head (tbl_UserProfile w)))).
Proof.
  intros Hk Hp Hup. rewrite get_api_v1_user_run.
  destruct (get_userprofile_by_uuid_inherited uuid w Hk Hp Hup) as [_ Hrun].
  destruct (get_userprofile_by_uuid uuid w) as [[v|e] w1]; cbn in Hrun |- *;
    congruence.
Qed.

Lemma lookup_inherited_name_witness :
  fst (get_api_v1_user "toString" world_logged_in)
  = Return (ReplyResult (nullable VProfile (head (tbl_UserProfile world_logged_in)))).
Proof.
  apply (lookup_inherited_name "toString" world_logged_in).
  - vm_compute. reflexivity.
  - apply list_elem_of_In. cbn. repeat (first [left; reflexivity | right]).
  - vm_compute. reflexivity.
Defined.
